(** * GraylogApi: a shallow embedding of [lib/graylogapi.py]

    The client class [GraylogApi] is a thin wrapper over three libraries:
    [urllib.parse] (URL resolution), [requests] (one blocking HTTP exchange
    per call) and [json].  The embedding keeps that shape:

    - Python [str] values are [string]s, Python exceptions are values of
      [exn], and a computation either returns or raises ([result]);
    - [urllib.parse.urljoin] is written out after the library's own text,
      because the client's request URL is whatever it computes;
    - the network, the UTF-8 decoder and the JSON decoder are parameters of
      the development (Section variables);
    - every method runs in a state monad over the receiver object and the
      outside world (requests issued so far, logger registry). *)

From Stdlib Require Import String Ascii List ZArith Bool Arith Lia.
From Stdlib Require Import SpecFloat.
From Stdlib.Strings Require Import Byte.
Import ListNotations.

Local Open Scope list_scope.
Local Open Scope string_scope.

(** ** Python values, exceptions, results *)

(** The exception classes the client can meet.  [ValueError] also stands for
    its subclasses raised by the decoders ([UnicodeDecodeError],
    [json.JSONDecodeError]); [RequestException] is the transport's. *)
Inductive exn : Type :=
| NameError (name : string)
| TypeError
| KeyError (key : string)
| ValueError
| AttributeError (attr : string)
| RequestException.

Inductive result (A : Type) : Type :=
| Return (a : A)
| Raise (e : exn).
Arguments Return {A} a.
Arguments Raise {A} e.

(** The values [json.loads] produces, and the payloads [requests] serialises:
    [None], [bool], [int], [float], [str], [list] and [dict] with [str] keys
    (an association list, first binding wins on lookup). *)
#[warnings="-register-all"]
Inductive pyval : Type :=
| PyNone
| PyBool (b : bool)
| PyInt (z : Z)
| PyFloat (f : spec_float)
| PyStr (s : string)
| PyList (l : list pyval)
| PyDict (d : list (string * pyval)).

Fixpoint dict_get (k : string) (d : list (string * pyval)) : option pyval :=
  match d with
  | [] => None
  | (k', v) :: d' => if String.eqb k k' then Some v else dict_get k d'
  end.

(** [obj[key]] for a [str] key: only a [dict] can answer; [None], numbers and
    booleans are not subscriptable, a [str] or a [list] wants an integer. *)
Definition py_getitem (obj : pyval) (key : string) : result pyval :=
  match obj with
  | PyDict d =>
      match dict_get key d with
      | Some v => Return v
      | None => Raise (KeyError key)
      end
  | _ => Raise TypeError
  end.

(** ** String primitives of Python used by [urllib.parse] *)

Definition code (c : ascii) : nat := nat_of_ascii c.

Definition chr_eqb (a b : ascii) : bool := Ascii.eqb a b.

(** [c in s] *)
Fixpoint str_contains (c : ascii) (s : string) : bool :=
  match s with
  | EmptyString => false
  | String a r => chr_eqb a c || str_contains c r
  end.

(** [s.find(c)], with [None] for -1 *)
Fixpoint str_find (c : ascii) (s : string) : option nat :=
  match s with
  | EmptyString => None
  | String a r =>
      if chr_eqb a c then Some 0
      else match str_find c r with
           | Some i => Some (S i)
           | None => None
           end
  end.

(** [s[:n]] and [s[n:]] *)
Fixpoint str_take (n : nat) (s : string) : string :=
  match n, s with
  | S n', String a r => String a (str_take n' r)
  | _, _ => EmptyString
  end.

Fixpoint str_drop (n : nat) (s : string) : string :=
  match n, s with
  | S n', String _ r => str_drop n' r
  | _, _ => s
  end.

(** [s.find(c, start)] *)
Definition str_find_from (c : ascii) (start : nat) (s : string) : option nat :=
  match str_find c (str_drop start s) with
  | Some i => if (start <=? String.length s)%nat then Some (start + i) else None
  | None => None
  end.

(** [s.rfind(c)] *)
Fixpoint str_rfind (c : ascii) (s : string) : option nat :=
  match s with
  | EmptyString => None
  | String a r =>
      match str_rfind c r with
      | Some i => Some (S i)
      | None => if chr_eqb a c then Some 0 else None
      end
  end.

(** [s.split(c)]: never empty *)
Fixpoint str_split (c : ascii) (s : string) : list string :=
  match s with
  | EmptyString => [EmptyString]
  | String a r =>
      if chr_eqb a c then EmptyString :: str_split c r
      else match str_split c r with
           | h :: t => String a h :: t
           | [] => [String a EmptyString]
           end
  end.

(** [s.partition(c)], the separator left out *)
Definition str_partition (c : ascii) (s : string) : string * string :=
  match str_find c s with
  | Some i => (str_take i s, str_drop (S i) s)
  | None => (s, EmptyString)
  end.

(** [s.rpartition(c)[2]] *)
Definition str_after_last (c : ascii) (s : string) : string :=
  match str_rfind c s with
  | Some i => str_drop (S i) s
  | None => s
  end.

Definition str_startswith (p s : string) : bool := String.prefix p s.

Definition is_empty (s : string) : bool :=
  match s with EmptyString => true | _ => false end.

(** [s.replace(c, "")] *)
Fixpoint str_remove (c : ascii) (s : string) : string :=
  match s with
  | EmptyString => EmptyString
  | String a r => if chr_eqb a c then str_remove c r else String a (str_remove c r)
  end.

Definition is_upper (c : ascii) : bool := ((65 <=? code c) && (code c <=? 90))%nat.
Definition is_lower (c : ascii) : bool := ((97 <=? code c) && (code c <=? 122))%nat.
Definition is_digit (c : ascii) : bool := ((48 <=? code c) && (code c <=? 57))%nat.

(** [c.isascii() and c.isalpha()] *)
Definition is_ascii_alpha (c : ascii) : bool := is_upper c || is_lower c.

Definition chr_lower (c : ascii) : ascii :=
  if is_upper c then ascii_of_nat (code c + 32) else c.

(** [s.lower()], on the characters a scheme can hold *)
Fixpoint str_lower (s : string) : string :=
  match s with
  | EmptyString => EmptyString
  | String a r => String (chr_lower a) (str_lower r)
  end.

Fixpoint str_forall (p : ascii -> bool) (s : string) : bool :=
  match s with
  | EmptyString => true
  | String a r => p a && str_forall p r
  end.

(** ** [urllib.parse]: tables *)

Definition uses_relative : list string :=
  [""; "ftp"; "http"; "gopher"; "nntp"; "imap";
   "wais"; "file"; "https"; "shttp"; "mms";
   "prospero"; "rtsp"; "rtspu"; "sftp";
   "svn"; "svn+ssh"; "ws"; "wss"].

Definition uses_netloc : list string :=
  [""; "ftp"; "http"; "gopher"; "nntp"; "telnet";
   "imap"; "wais"; "file"; "mms"; "https"; "shttp";
   "snews"; "prospero"; "rtsp"; "rtspu"; "rsync";
   "svn"; "svn+ssh"; "sftp"; "nfs"; "git"; "git+ssh";
   "ws"; "wss"].

Definition uses_params : list string :=
  [""; "ftp"; "hdl"; "prospero"; "http"; "imap";
   "https"; "shttp"; "rtsp"; "rtspu"; "sip"; "sips";
   "mms"; "sftp"; "tel"].

(** [x in table] *)
Definition str_in (x : string) (table : list string) : bool :=
  existsb (String.eqb x) table.

(** Characters valid in scheme names: letters, digits and [+-.] *)
Definition scheme_char (c : ascii) : bool :=
  is_lower c || is_upper c || is_digit c
  || chr_eqb c "+" || chr_eqb c "-" || chr_eqb c ".".

(** [_WHATWG_C0_CONTROL_OR_SPACE]: the code points 0 to 0x20 *)
Definition c0_control_or_space (c : ascii) : bool := (code c <=? 32)%nat.

(** [_UNSAFE_URL_BYTES_TO_REMOVE]: tab, carriage return, line feed *)
Definition TAB : ascii := ascii_of_nat 9.
Definition CR : ascii := ascii_of_nat 13.
Definition LF : ascii := ascii_of_nat 10.

Definition remove_unsafe_bytes (s : string) : string :=
  str_remove LF (str_remove CR (str_remove TAB s)).

Fixpoint str_lstrip (p : ascii -> bool) (s : string) : string :=
  match s with
  | EmptyString => EmptyString
  | String a r => if p a then str_lstrip p r else s
  end.

Fixpoint str_rstrip (p : ascii -> bool) (s : string) : string :=
  match s with
  | EmptyString => EmptyString
  | String a r =>
      match str_rstrip p r with
      | EmptyString => if p a then EmptyString else String a EmptyString
      | r' => String a r'
      end
  end.

Definition str_strip (p : ascii -> bool) (s : string) : string :=
  str_rstrip p (str_lstrip p s).

(** ** [urllib.parse]: splitting and joining

    [urllib.parse] belongs to Python's standard library, not to the
    repository; the client calls [urljoin] for every request.  The spec asks
    for the standard relative-URL resolution rules; the definitions below
    write them out the way CPython 3.11 ([Lib/urllib/parse.py]) carries them
    out, function by function.  Two checks of [urlsplit] stay outside:
    - [_check_bracketed_host] (it calls [ipaddress] and [re]) is the
      parameter [check_bracketed_host];
    - [_checknetloc] only rejects a network location that holds one of
      [/?#@:] after NFKC normalisation; no 8-bit character normalises to
      one of these, so on the strings of this development it never raises. *)

Section Client.

(** [true] when [_check_bracketed_host] accepts the host between brackets,
    [false] when it raises [ValueError]. *)
Variable check_bracketed_host : string -> bool.

(** Modelled from the spec: [urllib.parse._splitparams] (standard library,
    not in the repository): the parameters follow the first semicolon of
    the last path segment. *)
Definition _splitparams (url : string) : string * string :=
  if str_contains "/" url then
    match str_rfind "/" url with
    | Some j =>
        match str_find_from ";" j url with
        | Some i => (str_take i url, str_drop (S i) url)
        | None => (url, "")
        end
    | None => (url, "")
    end
  else
    match str_find ";" url with
    | Some i => (str_take i url, str_drop (S i) url)
    | None => (str_take (String.length url - 1) url, url)
    end.

(** Modelled from the spec: [urllib.parse._splitnetloc] (standard library,
    not in the repository): the network location runs from [start] to the
    first of [/], [?], [#]. *)
Definition _splitnetloc (url : string) (start : nat) : string * string :=
  let delim :=
    fold_left
      (fun delim c =>
         match str_find_from c start url with
         | Some wdelim => Nat.min delim wdelim
         | None => delim
         end)
      ["/"; "?"; "#"]%char (String.length url) in
  (str_take (delim - start) (str_drop start url), str_drop delim url).

(** Modelled from the spec: [urllib.parse._check_bracketed_netloc]
    (standard library, not in the repository): nothing before the bracket,
    nothing but a port after it. *)
Definition _check_bracketed_netloc (netloc : string) : result unit :=
  let hostname_and_port := str_after_last "@" netloc in
  if str_contains "[" hostname_and_port then
    let '(before_bracket, bracketed) := str_partition "[" hostname_and_port in
    if negb (is_empty before_bracket) then Raise ValueError
    else
      let '(hostname, port) := str_partition "]" bracketed in
      if negb (is_empty port) && negb (str_startswith ":" port)
      then Raise ValueError
      else if check_bracketed_host hostname then Return tt else Raise ValueError
  else
    let '(hostname, port) := str_partition ":" hostname_and_port in
    if check_bracketed_host hostname then Return tt else Raise ValueError.

(** The five components: scheme, netloc, path, query, fragment. *)
Definition SplitResult : Type := string * string * string * string * string.

(** The six components: scheme, netloc, path, params, query, fragment. *)
Definition ParseResult : Type :=
  string * string * string * string * string * string.

(** Modelled from the spec: [urllib.parse.urlsplit] (standard library, not
    in the repository), with [allow_fragments] at its default. *)
Definition urlsplit (url scheme : string) : result SplitResult :=
  let url := str_lstrip c0_control_or_space url in
  let scheme := str_strip c0_control_or_space scheme in
  let url := remove_unsafe_bytes url in
  let scheme := remove_unsafe_bytes scheme in
  let '(scheme, url) :=
    match str_find ":" url, url with
    | Some (S i), String c0 _ =>
        if is_ascii_alpha c0 && str_forall scheme_char (str_take (S i) url)
        then (str_lower (str_take (S i) url), str_drop (S (S i)) url)
        else (scheme, url)
    | _, _ => (scheme, url)
    end in
  let split_rest (netloc url : string) : result SplitResult :=
    let '(url, fragment) :=
      if str_contains "#" url then str_partition "#" url else (url, "") in
    let '(url, query) :=
      if str_contains "?" url then str_partition "?" url else (url, "") in
    Return (scheme, netloc, url, query, fragment) in
  if String.eqb (str_take 2 url) "//" then
    let '(netloc, url) := _splitnetloc url 2 in
    if (str_contains "[" netloc && negb (str_contains "]" netloc))
       || (str_contains "]" netloc && negb (str_contains "[" netloc))
    then Raise ValueError
    else if str_contains "[" netloc && str_contains "]" netloc then
      match _check_bracketed_netloc netloc with
      | Return _ => split_rest netloc url
      | Raise e => Raise e
      end
    else split_rest netloc url
  else split_rest "" url.

(** Modelled from the spec: [urllib.parse.urlparse] (standard library, not
    in the repository). *)
Definition urlparse (url scheme : string) : result ParseResult :=
  match urlsplit url scheme with
  | Raise e => Raise e
  | Return (scheme, netloc, url, query, fragment) =>
      let '(url, params) :=
        if str_in scheme uses_params && str_contains ";" url
        then _splitparams url
        else (url, "") in
      Return (scheme, netloc, url, params, query, fragment)
  end.

(** Modelled from the spec: [urllib.parse.urlunsplit] (standard library,
    not in the repository). *)
Definition urlunsplit (components : SplitResult) : string :=
  let '(scheme, netloc, url, query, fragment) := components in
  let url :=
    if negb (is_empty netloc)
       || (negb (is_empty scheme) && str_in scheme uses_netloc
           && negb (String.eqb (str_take 2 url) "//"))
    then
      let url :=
        if negb (is_empty url) && negb (String.eqb (str_take 1 url) "/")
        then "/" ++ url else url in
      "//" ++ netloc ++ url
    else url in
  let url := if negb (is_empty scheme) then scheme ++ ":" ++ url else url in
  let url := if negb (is_empty query) then url ++ "?" ++ query else url in
  let url := if negb (is_empty fragment) then url ++ "#" ++ fragment else url in
  url.

(** Modelled from the spec: [urllib.parse.urlunparse] (standard library,
    not in the repository). *)
Definition urlunparse (components : ParseResult) : string :=
  let '(scheme, netloc, url, params, query, fragment) := components in
  let url := if negb (is_empty params) then url ++ ";" ++ params else url in
  urlunsplit (scheme, netloc, url, query, fragment).

(** [bpath.split('/')] with its last item deleted when it is not a
    directory (not the empty string). *)
Definition base_directory (base_parts : list string) : list string :=
  if negb (is_empty (last base_parts "")) then removelast base_parts
  else base_parts.

(** [segments[1:-1] = filter(None, segments[1:-1])]: the empty strings
    strictly between the first and the last item go. *)
Definition drop_inner_empty (segments : list string) : list string :=
  match segments with
  | [] => []
  | first :: rest =>
      match rest with
      | [] => [first]
      | _ =>
          first :: (filter (fun seg => negb (is_empty seg)) (removelast rest)
                      ++ [last rest ""])%list
      end
  end.

(** One turn of the loop over the segments: [..] pops (an empty stack stays
    empty), [.] is skipped, anything else is appended. *)
Definition resolve_step (resolved_path : list string) (seg : string)
  : list string :=
  if String.eqb seg ".." then removelast resolved_path
  else if String.eqb seg "." then resolved_path
  else (resolved_path ++ [seg])%list.

Definition resolve_segments (segments : list string) : string :=
  let resolved_path := fold_left resolve_step segments [] in
  let resolved_path :=
    if String.eqb (last segments "") "." || String.eqb (last segments "") ".."
    then (resolved_path ++ [""])%list else resolved_path in
  let joined := String.concat "/" resolved_path in
  if is_empty joined then "/" else joined.

(** Modelled from the spec: [urllib.parse.urljoin] (standard library, not
    in the repository), the relative-URL resolution the spec names: a
    reference with a scheme of its own or a network location stands alone,
    an empty path keeps the base path, a path with a leading slash replaces
    it, any other path is merged with its directory, and dot segments are
    resolved. *)
Definition urljoin (base url : string) : result string :=
  if is_empty base then Return url
  else if is_empty url then Return base
  else
    match urlparse base "" with
    | Raise e => Raise e
    | Return (bscheme, bnetloc, bpath, bparams, bquery, bfragment) =>
        match urlparse url bscheme with
        | Raise e => Raise e
        | Return (scheme, netloc, path, params, query, fragment) =>
            if negb (String.eqb scheme bscheme)
               || negb (str_in scheme uses_relative)
            then Return url
            else if str_in scheme uses_netloc && negb (is_empty netloc) then
              Return (urlunparse (scheme, netloc, path, params, query, fragment))
            else
              let netloc :=
                if str_in scheme uses_netloc then bnetloc else netloc in
              if is_empty path && is_empty params then
                let query := if is_empty query then bquery else query in
                Return (urlunparse
                          (scheme, netloc, bpath, bparams, query, fragment))
              else
                let base_parts := base_directory (str_split "/" bpath) in
                let segments :=
                  if String.eqb (str_take 1 path) "/"
                  then str_split "/" path
                  else drop_inner_empty (base_parts ++ str_split "/" path)%list in
                Return (urlunparse
                          (scheme, netloc, resolve_segments segments,
                           params, query, fragment))
        end
    end.

(** ** The world outside the client *)

Inductive http_method : Type := GET | PUT | DELETE.

(** What [requests.get], [requests.put] and [requests.delete] are handed. *)
Record Request : Type := mkRequest {
  req_method : http_method;
  req_url : string;
  req_json : option pyval;
  req_headers : list (string * string);
  req_auth : string * string
}.

(** The two attributes of a [requests.Response] the client reads. *)
Record Response : Type := mkResponse {
  status_code : Z;
  content : list byte
}.

(** The receiver: the attributes [__init__] stores on [self]. *)
Record GraylogApi : Type := mkGraylogApi {
  url : string;
  api_token : string;
  api_token_password : string;
  headers : list (string * string);
  logger : string
}.

(** The process around the object: the requests issued so far, oldest
    first, and the level of each named logger of [logging]. *)
Record World : Type := mkWorld {
  issued : list Request;
  logger_levels : list (string * Z)
}.

Record State : Type := mkState {
  self : GraylogApi;
  world : World
}.

(** The network: the outcome of one exchange, given the requests issued
    before it.  It returns a response or raises (connection refused, ...). *)
Variable serve : list Request -> Request -> result Response.

(** [bytes.decode('utf-8')] and [json.loads]. *)
Variable decode_utf8 : list byte -> result string.
Variable json_loads : string -> result pyval.

(** ** The monad of method bodies: state and exceptions *)

Definition M (A : Type) : Type := State -> result A * State.

Definition ret {A : Type} (a : A) : M A := fun st => (Return a, st).

Definition raise {A : Type} (e : exn) : M A := fun st => (Raise e, st).

Definition bind {A B : Type} (m : M A) (k : A -> M B) : M B :=
  fun st =>
    match m st with
    | (Return a, st') => k a st'
    | (Raise e, st') => (Raise e, st')
    end.

Definition lift {A : Type} (r : result A) : M A := fun st => (r, st).

Notation "x <- m ;; k" := (bind m (fun x => k))
  (at level 61, m at next level, right associativity).

(** [self.<attribute>] *)
Definition getattr_self {A : Type} (attribute : GraylogApi -> A) : M A :=
  fun st => (Return (attribute (self st)), st).

(** One blocking exchange: the request joins [issued], the network answers. *)
Definition exchange (rq : Request) : M Response :=
  fun st =>
    (serve (issued (world st)) rq,
     mkState (self st)
       (mkWorld (issued (world st) ++ [rq])%list (logger_levels (world st)))).

Definition requests_get (request_url : string)
    (hdrs : list (string * string)) (auth : string * string) : M Response :=
  exchange (mkRequest GET request_url None hdrs auth).

Definition requests_put (request_url : string) (json : pyval)
    (hdrs : list (string * string)) (auth : string * string) : M Response :=
  exchange (mkRequest PUT request_url (Some json) hdrs auth).

Definition requests_delete (request_url : string)
    (hdrs : list (string * string)) (auth : string * string) : M Response :=
  exchange (mkRequest DELETE request_url None hdrs auth).

(** The names bound at module level when a method runs: the five imports
    and the class.  (No builtin is called [response] either.) *)
Definition module_globals : list string :=
  ["urllib"; "requests"; "json"; "sys"; "logging"; "GraylogApi"].

(** [name.attr] for a [name] that no assignment in the function binds: it is
    looked up among the globals.  A module or the class has none of the
    attributes of a response. *)
Definition load_global_attr {A : Type} (name attr : string) : M A :=
  if str_in name module_globals then raise (AttributeError attr)
  else raise (NameError name).

(** [template.format(arg)] for a [str] argument: the first replacement
    field [{}] becomes [arg]. *)
Fixpoint str_format (template arg : string) : string :=
  match template with
  | String "{" (String "}" rest) => arg ++ rest
  | String c rest => String c (str_format rest arg)
  | EmptyString => EmptyString
  end.

(** [logging.getLogger(name).setLevel(level)] *)
Definition set_logger_level (name : string) (level : Z) (w : World) : World :=
  mkWorld (issued w) ((name, level) :: logger_levels w).

Definition WARNING : Z := 30.

(** ** The class [GraylogApi] *)

Definition default_url : string := "http://127.0.0.1:9000/api/".

(** [__init__(self, api_token, url='http://127.0.0.1:9000/api/')] *)
Definition __init__ (token : string) (url_arg : option string) (w : World)
  : State :=
  let obj :=
    mkGraylogApi
      (match url_arg with Some u => u | None => default_url end)
      token
      "token"
      [("Content-Type", "application/json"); ("X-Requested-By", "cli")]
      "graylogapi" in
  mkState obj (set_logger_level "graylogapi" WARNING w).

Definition get_request (operation : string) : M pyval :=
  base <- getattr_self url ;;
  request_url <- lift (urljoin base operation) ;;
  hdrs <- getattr_self headers ;;
  user <- getattr_self api_token ;;
  password <- getattr_self api_token_password ;;
  response <- requests_get request_url hdrs (user, password) ;;
  if (status_code response =? 200)%Z then
    text <- lift (decode_utf8 (content response)) ;;
    lift (json_loads text)
  else ret PyNone.

Definition post_request : M pyval := ret PyNone.

Definition put_request (operation : string) (data : pyval) : M Z :=
  base <- getattr_self url ;;
  request_url <- lift (urljoin base operation) ;;
  hdrs <- getattr_self headers ;;
  user <- getattr_self api_token ;;
  password <- getattr_self api_token_password ;;
  response <- requests_put request_url data hdrs (user, password) ;;
  ret (status_code response).

(** The response is bound to [reponse]; the [return] reads [response]. *)
Definition del_request (operation : string) : M Z :=
  base <- getattr_self url ;;
  request_url <- lift (urljoin base operation) ;;
  hdrs <- getattr_self headers ;;
  user <- getattr_self api_token ;;
  password <- getattr_self api_token_password ;;
  reponse <- requests_delete request_url hdrs (user, password) ;;
  load_global_attr "response" "status_code".

Definition get_streams : M pyval :=
  obj <- get_request "streams" ;;
  lift (py_getitem obj "streams").

Definition delete_users_id (user_id : string) : M bool :=
  status <- del_request (str_format "users/id/{}" user_id) ;;
  if (status =? 400)%Z then ret false else ret true.

Definition get_users : M pyval := get_request "users".

Definition get_users_username (username : string) : M pyval :=
  get_request (str_format "users/{}" username).

Definition put_users_permissions (username : string) (permissions : pyval)
  : M bool :=
  let json_data := PyDict [("permissions", permissions)] in
  status <- put_request (str_format "users/{}/permissions" username) json_data ;;
  if (status =? 400)%Z then ret false else ret true.

(** ** Vocabulary of the statements *)

(** [result] is a monad of its own: decoding then parsing. *)
Definition result_bind {A B : Type} (r : result A) (k : A -> result B)
  : result B :=
  match r with
  | Return a => k a
  | Raise e => Raise e
  end.

(** The request a method issues on behalf of [obj]: the object's headers and
    basic-auth pair go out unchanged. *)
Definition request_for (m : http_method) (obj : GraylogApi) (u : string)
    (json : option pyval) : Request :=
  mkRequest m u json (headers obj) (api_token obj, api_token_password obj).

(** The state once [rq] has been exchanged: [rq] is the newest issued
    request, nothing else moved. *)
Definition after_exchange (st : State) (rq : Request) : State :=
  mkState (self st)
    (mkWorld (issued (world st) ++ [rq])%list (logger_levels (world st))).

(** The network delivers [r] when [obj]'s request [rq] is exchanged in [st]. *)
Definition delivers (st : State) (rq : Request) (r : Response) : Prop :=
  serve (issued (world st)) rq = Return r.

(** The three primitives issue, from [st], one request each, addressed
    to [u]. *)
Definition requests_addressed_to (operation : string) (data : pyval)
    (st : State) (u : string) : Prop :=
  issued (world (snd (get_request operation st)))
  = (issued (world st) ++ [request_for GET (self st) u None])%list /\
  issued (world (snd (put_request operation data st)))
  = (issued (world st) ++ [request_for PUT (self st) u (Some data)])%list /\
  issued (world (snd (del_request operation st)))
  = (issued (world st) ++ [request_for DELETE (self st) u None])%list.

(** A text that is a path and nothing more: no query, fragment or
    parameter delimiter, and none of the bytes [urlsplit] deletes. *)
Definition path_text (p : string) : bool :=
  negb (str_contains "?" p) && negb (str_contains "#" p)
  && negb (str_contains ";" p) && negb (str_contains TAB p)
  && negb (str_contains CR p) && negb (str_contains LF p).

(** A relative path: not empty, no leading slash, blank or control
    character, and no colon in its first segment (that would be a scheme). *)
Definition relative_path (p : string) : bool :=
  match p with
  | EmptyString => false
  | String c _ =>
      negb (chr_eqb c "/") && negb (c0_control_or_space c)
      && negb (str_contains ":" (hd "" (str_split "/" p)))
      && path_text p
  end.

(** An absolute path: one leading slash (two would announce a network
    location). *)
Definition absolute_path (p : string) : bool :=
  match p with
  | EmptyString => false
  | String c r =>
      chr_eqb c "/" && negb (String.eqb (str_take 1 r) "/") && path_text p
  end.

Definition dot_segment (seg : string) : bool :=
  String.eqb seg "." || String.eqb seg "..".

Definition plain_segment (seg : string) : bool :=
  negb (is_empty seg) && negb (dot_segment seg).

(** Segments that resolution leaves alone: no [.] or [..], and no empty
    segment except possibly the last (a trailing slash). *)
Definition plain_segments (segments : list string) : bool :=
  forallb plain_segment (removelast segments)
  && negb (dot_segment (last segments "")).

(** The path of a directory: it starts and ends with a slash, with plain
    segments in between. *)
Definition directory_path (bpath : string) : bool :=
  match str_split "/" bpath with
  | first :: rest =>
      is_empty first && is_empty (last rest ".")
      && forallb plain_segment (removelast rest)
  | [] => false
  end.

(** What [urljoin] makes of the base path [bpath] and a relative path. *)
Definition merge_paths (bpath p : string) : string :=
  resolve_segments
    (drop_inner_empty
       (base_directory (str_split "/" bpath) ++ str_split "/" p)%list).

(** A method leaves the receiver as it found it. *)
Definition preserves_self {A : Type} (m : M A) : Prop :=
  forall st, self (snd (m st)) = self st.

(** ** Sample environment, for instances of the statements *)

Definition any_bracketed_host (_ : string) : bool := true.

(** A server that answers every request with the same status and body. *)
Definition constant_server (status : Z) (body : list byte)
  : list Request -> Request -> result Response :=
  fun _ _ => Return (mkResponse status body).

Definition ascii_decode (b : list byte) : result string :=
  Return (string_of_list_byte b).

Definition dquote : ascii := ascii_of_nat 34.

(** The text of the JSON object with one member, [streams], an empty array. *)
Definition streams_text : string :=
  "{" ++ String dquote ("streams" ++ String dquote ": []}").

(** A decoder that knows three texts and rejects the rest. *)
Definition table_json_loads (text : string) : result pyval :=
  if String.eqb text streams_text then Return (PyDict [("streams", PyList [])])
  else if String.eqb text "{}" then Return (PyDict [])
  else if String.eqb text "null" then Return PyNone
  else Raise ValueError.

Definition fresh_world : World := mkWorld [] [].

(** A client built with the default base URL, and one built for
    [http://localhost:9000/api/], both with the token [abc123]. *)
Definition default_client : State := __init__ "abc123" None fresh_world.

Definition local_client : State :=
  __init__ "abc123" (Some "http://localhost:9000/api/") fresh_world.

(** A client whose base URL lacks the trailing slash. *)
Definition slashless_client : State :=
  __init__ "abc123" (Some "http://127.0.0.1:9000/api") fresh_world.

(** The body of a response, from its text. *)
Definition body_of (text : string) : list byte := list_byte_of_string text.

(** ** The calls of a user *)

(** One call of a method of the class, with its arguments. *)
Inductive call : Type :=
| Call_get_request (operation : string)
| Call_post_request
| Call_put_request (operation : string) (data : pyval)
| Call_del_request (operation : string)
| Call_get_streams
| Call_delete_users_id (user_id : string)
| Call_get_users
| Call_get_users_username (username : string)
| Call_put_users_permissions (username : string) (permissions : pyval).

(** Making the call; a status code or a boolean comes back as the Python
    value it is. *)
Definition invoke (c : call) : M pyval :=
  match c with
  | Call_get_request operation => get_request operation
  | Call_post_request => post_request
  | Call_put_request operation data =>
      status <- put_request operation data ;; ret (PyInt status)
  | Call_del_request operation =>
      status <- del_request operation ;; ret (PyInt status)
  | Call_get_streams => get_streams
  | Call_delete_users_id user_id =>
      ok <- delete_users_id user_id ;; ret (PyBool ok)
  | Call_get_users => get_users
  | Call_get_users_username username => get_users_username username
  | Call_put_users_permissions username permissions =>
      ok <- put_users_permissions username permissions ;; ret (PyBool ok)
  end.

(** A caller that makes the calls one after the other and goes on after an
    exception. *)
Fixpoint invoke_all (cs : list call) (st : State) : State :=
  match cs with
  | [] => st
  | c :: cs' => invoke_all cs' (snd (invoke c st))
  end.

(** The exchange a call is written for: HTTP method, operation path, JSON
    payload.  [post_request] has none. *)
Definition planned_request (c : call)
  : option (http_method * string * option pyval) :=
  match c with
  | Call_get_request operation => Some (GET, operation, None)
  | Call_post_request => None
  | Call_put_request operation data => Some (PUT, operation, Some data)
  | Call_del_request operation => Some (DELETE, operation, None)
  | Call_get_streams => Some (GET, "streams", None)
  | Call_delete_users_id user_id =>
      Some (DELETE, "users/id/" ++ user_id, None)
  | Call_get_users => Some (GET, "users", None)
  | Call_get_users_username username =>
      Some (GET, "users/" ++ username, None)
  | Call_put_users_permissions username permissions =>
      Some (PUT, "users/" ++ username ++ "/permissions",
            Some (PyDict [("permissions", permissions)]))
  end.

(** The calls that build their operation path themselves. *)
Definition endpoint_call (c : call) : bool :=
  match c with
  | Call_get_streams | Call_delete_users_id _ | Call_get_users
  | Call_get_users_username _ | Call_put_users_permissions _ _ => true
  | _ => false
  end.

(** What a request of a client built with [token] looks like: the two
    fixed headers, the token with the password [token], and a JSON payload
    on a PUT only. *)
Definition client_request (token : string) (rq : Request) : Prop :=
  req_headers rq
  = [("Content-Type", "application/json"); ("X-Requested-By", "cli")]
  /\ req_auth rq = (token, "token")
  /\ (req_json rq <> None <-> req_method rq = PUT).

(** The level of a named logger; [NOTSET] until someone sets it. *)
Definition NOTSET : Z := 0.

Fixpoint level_of (name : string) (levels : list (string * Z)) : Z :=
  match levels with
  | [] => NOTSET
  | (n, level) :: levels' =>
      if String.eqb name n then level else level_of name levels'
  end.

Definition logger_level (name : string) (w : World) : Z :=
  level_of name (logger_levels w).

(** A reference that brings neither a scheme nor a network location of its
    own, as [urlsplit] reads it (blanks stripped, tab, CR and LF deleted):
    no colon before the first slash, no two leading slashes. *)
Definition keeps_server (reference : string) : bool :=
  let cleaned :=
    remove_unsafe_bytes (str_lstrip c0_control_or_space reference) in
  negb (is_empty reference)
  && negb (str_contains ":" (hd "" (str_split "/" cleaned)))
  && negb (String.eqb (str_take 2 cleaned) "//").

(** What may follow a network location in a URL: nothing, or something
    that starts the path, the query or the fragment. *)
Definition after_netloc (rest : string) : bool :=
  match rest with
  | EmptyString => true
  | String c _ => chr_eqb c "/" || chr_eqb c "?" || chr_eqb c "#"
  end.

(** ** Running the three primitives *)

Lemma get_request_run (operation : string) (st : State) (u : string) :
  urljoin (url (self st)) operation = Return u ->
  get_request operation st =
    (match serve (issued (world st)) (request_for GET (self st) u None) with
     | Return r =>
         if (status_code r =? 200)%Z
         then result_bind (decode_utf8 (content r)) json_loads
         else Return PyNone
     | Raise e => Raise e
     end,
     after_exchange st (request_for GET (self st) u None)).
Proof.
  intros Hu.
  unfold get_request, bind, getattr_self, lift, requests_get, exchange.
  rewrite Hu. unfold request_for, after_exchange. cbn.
  destruct (serve _ _) as [r | e]; [ | reflexivity ].
  destruct (status_code r =? 200)%Z; [ | reflexivity ].
  cbn. destruct (decode_utf8 (content r)); reflexivity.
Qed.

Lemma put_request_run (operation : string) (data : pyval) (st : State)
    (u : string) :
  urljoin (url (self st)) operation = Return u ->
  put_request operation data st =
    (match serve (issued (world st))
             (request_for PUT (self st) u (Some data)) with
     | Return r => Return (status_code r)
     | Raise e => Raise e
     end,
     after_exchange st (request_for PUT (self st) u (Some data))).
Proof.
  intros Hu.
  unfold put_request, bind, getattr_self, lift, requests_put, exchange.
  rewrite Hu. unfold request_for, after_exchange. cbn.
  destruct (serve _ _); reflexivity.
Qed.

Lemma del_request_run (operation : string) (st : State) (u : string) :
  urljoin (url (self st)) operation = Return u ->
  del_request operation st =
    (match serve (issued (world st)) (request_for DELETE (self st) u None) with
     | Return _ => Raise (NameError "response")
     | Raise e => Raise e
     end,
     after_exchange st (request_for DELETE (self st) u None)).
Proof.
  intros Hu.
  unfold del_request, bind, getattr_self, lift, requests_delete, exchange.
  rewrite Hu. unfold request_for, after_exchange. cbn.
  destruct (serve _ _); reflexivity.
Qed.

(** When the URL cannot be resolved the primitive raises before any
    exchange. *)
Lemma del_request_unresolved (operation : string) (st : State) (e : exn) :
  urljoin (url (self st)) operation = Raise e ->
  del_request operation st = (Raise e, st).
Proof.
  intros Hu.
  unfold del_request, bind, getattr_self, lift. rewrite Hu. reflexivity.
Qed.

(** ** The delete primitive *)

(** Whatever the URL and the network do, [del_request] ends in an
    exception. *)
Lemma del_request_raises (operation : string) (st : State) :
  exists e, fst (del_request operation st) = Raise e.
Proof.
  destruct (urljoin (url (self st)) operation) as [u | e] eqn:Hu.
  - rewrite (del_request_run _ _ _ Hu). cbn [fst].
    destruct (serve _ _) as [r | e]; eexists; reflexivity.
  - rewrite (del_request_unresolved _ _ _ Hu). eexists; reflexivity.
Qed.

(** C1: [del_request] never returns a status code.  Every call ends in an
    exception; whenever the DELETE was answered, the exception is the
    [NameError] on [response], the name the [return] reads while the answer
    sits in [reponse], and the DELETE has gone out. *)
Theorem del_request_always_raises (operation : string) (st : State) :
  (exists e, fst (del_request operation st) = Raise e) /\
  (forall z, fst (del_request operation st) <> Return z) /\
  (forall u r,
      urljoin (url (self st)) operation = Return u ->
      delivers st (request_for DELETE (self st) u None) r ->
      del_request operation st =
        (Raise (NameError "response"),
         after_exchange st (request_for DELETE (self st) u None))).
Proof.
  destruct (del_request_raises operation st) as [e He].
  split; [ now exists e | split ].
  - intros z Hz. rewrite He in Hz. discriminate.
  - intros u r Hu Hr. rewrite (del_request_run _ _ _ Hu).
    unfold delivers in Hr. rewrite Hr. reflexivity.
Qed.

(** No call of [delete_users_id] returns a boolean: it rests on
    [del_request]. *)
Lemma delete_users_id_never_returns (user_id : string) (st : State) (b : bool) :
  fst (delete_users_id user_id st) <> Return b.
Proof.
  unfold delete_users_id, bind.
  destruct (del_request_raises (str_format "users/id/{}" user_id) st)
    as [e He].
  destruct (del_request _ st) as [[z | e'] st']; cbn in He; [ discriminate | ].
  cbn. discriminate.
Qed.

(** ** The read primitive and the streams accessor *)

(** C3: once the GET is answered, status 200 makes [get_request] return what
    decoding the body as UTF-8 and parsing it as JSON gives, and every other
    status makes it return [None] normally; for a body that decodes to a
    value other than [None], that value comes back exactly when the status
    is 200. *)
Theorem get_request_parses_iff_200 (operation : string) (st : State)
    (u : string) (r : Response) :
  urljoin (url (self st)) operation = Return u ->
  delivers st (request_for GET (self st) u None) r ->
  (status_code r = 200%Z ->
   fst (get_request operation st)
   = result_bind (decode_utf8 (content r)) json_loads) /\
  (status_code r <> 200%Z ->
   fst (get_request operation st) = Return PyNone) /\
  (forall text v,
      decode_utf8 (content r) = Return text ->
      json_loads text = Return v ->
      v <> PyNone ->
      (fst (get_request operation st) = Return v <-> status_code r = 200%Z)).
Proof.
  intros Hu Hr. unfold delivers in Hr.
  rewrite (get_request_run _ _ _ Hu), Hr. cbn.
  destruct (Z.eqb_spec (status_code r) 200) as [E | E].
  - split; [ reflexivity | ]. split; [ congruence | ].
    intros text v Hd Hj _. rewrite Hd. cbn. rewrite Hj. tauto.
  - split; [ congruence | ]. split; [ reflexivity | ].
    intros text v _ _ Hv. split; [ | congruence ].
    intros H. injection H as H. congruence.
Qed.

(** C4: once the GET on [streams] is answered, a 200 whose body parses to an
    object with a [streams] member makes [get_streams] return that member's
    value, and any other status makes it raise: [None] is subscripted. *)
Theorem get_streams_member_or_raise (st : State) (u : string) (r : Response) :
  urljoin (url (self st)) "streams" = Return u ->
  delivers st (request_for GET (self st) u None) r ->
  (status_code r = 200%Z ->
   forall text d v,
     decode_utf8 (content r) = Return text ->
     json_loads text = Return (PyDict d) ->
     dict_get "streams" d = Some v ->
     get_streams st
     = (Return v, after_exchange st (request_for GET (self st) u None))) /\
  (status_code r <> 200%Z ->
   get_streams st
   = (Raise TypeError, after_exchange st (request_for GET (self st) u None))).
Proof.
  intros Hu Hr. unfold delivers in Hr. unfold get_streams, bind.
  rewrite (get_request_run _ _ _ Hu), Hr.
  destruct (Z.eqb_spec (status_code r) 200) as [E | E]; split;
    try congruence.
  - intros _ text d v Hd Hj Hv. rewrite Hd. cbn. rewrite Hj.
    unfold lift, py_getitem. rewrite Hv. reflexivity.
  - intros _. reflexivity.
Qed.

(** C9: a 200 does not guard the subscript either.  When the body parses to
    an object without a [streams] member, [get_streams] raises [KeyError];
    when it parses to anything that is not an object, it raises
    [TypeError]. *)
Theorem get_streams_200_unguarded (st : State) (u : string) (r : Response)
    (text : string) (v : pyval) :
  urljoin (url (self st)) "streams" = Return u ->
  delivers st (request_for GET (self st) u None) r ->
  status_code r = 200%Z ->
  decode_utf8 (content r) = Return text ->
  json_loads text = Return v ->
  (forall d, v = PyDict d -> dict_get "streams" d = None ->
             get_streams st
             = (Raise (KeyError "streams"),
                after_exchange st (request_for GET (self st) u None))) /\
  ((forall d, v <> PyDict d) ->
   get_streams st
   = (Raise TypeError, after_exchange st (request_for GET (self st) u None))).
Proof.
  intros Hu Hr E Hd Hj. unfold delivers in Hr. unfold get_streams, bind.
  rewrite (get_request_run _ _ _ Hu), Hr, E, Hd. cbn. rewrite Hj.
  unfold lift, py_getitem. split.
  - intros d -> Hnone. rewrite Hnone. reflexivity.
  - intros Hnot. destruct v; try reflexivity. now destruct (Hnot d).
Qed.

(** ** The write primitive and the permissions update *)

(** C6: once the PUT is answered, [put_request] returns the status code of
    the answer as it is, whatever the code (100 to 599 included) and
    whatever the body, and the PUT carries the payload. *)
Theorem put_request_returns_status (operation : string) (data : pyval)
    (st : State) (u : string) (status : Z) (body : list byte) :
  urljoin (url (self st)) operation = Return u ->
  delivers st (request_for PUT (self st) u (Some data))
    (mkResponse status body) ->
  put_request operation data st
  = (Return status,
     after_exchange st (request_for PUT (self st) u (Some data))).
Proof.
  intros Hu Hr. unfold delivers in Hr.
  rewrite (put_request_run _ _ _ _ Hu), Hr. reflexivity.
Qed.

(** C5: [put_users_permissions] issues one PUT to the URL resolved from
    [users/<username>/permissions], with the JSON payload
    [{"permissions": permissions}] and nothing else in it; answered with
    status 400 it returns [False], answered with any other status it
    returns [True]. *)
Theorem put_users_permissions_body_and_result (username : string)
    (permissions : pyval) (st : State) (u : string) (r : Response) :
  urljoin (url (self st)) ("users/" ++ username ++ "/permissions") = Return u ->
  delivers st
    (request_for PUT (self st) u (Some (PyDict [("permissions", permissions)])))
    r ->
  put_users_permissions username permissions st
  = (Return (negb (status_code r =? 400)%Z),
     after_exchange st
       (request_for PUT (self st) u
          (Some (PyDict [("permissions", permissions)])))) /\
  (status_code r = 400%Z ->
   fst (put_users_permissions username permissions st) = Return false) /\
  (status_code r <> 400%Z ->
   fst (put_users_permissions username permissions st) = Return true).
Proof.
  intros Hu Hr. unfold delivers in Hr.
  assert (Hrun : put_users_permissions username permissions st
                 = (Return (negb (status_code r =? 400)%Z),
                    after_exchange st
                      (request_for PUT (self st) u
                         (Some (PyDict [("permissions", permissions)]))))).
  { unfold put_users_permissions, bind. cbn [str_format].
    rewrite (put_request_run _ _ _ _ Hu), Hr.
    destruct (status_code r =? 400)%Z; reflexivity. }
  rewrite Hrun. cbn.
  destruct (Z.eqb_spec (status_code r) 400); repeat split; congruence.
Qed.

(** ** The receiver is read, never written *)

Lemma preserves_ret {A : Type} (a : A) : preserves_self (ret a).
Proof. intros st. reflexivity. Qed.

Lemma preserves_raise {A : Type} (e : exn) : preserves_self (@raise A e).
Proof. intros st. reflexivity. Qed.

Lemma preserves_lift {A : Type} (r : result A) : preserves_self (lift r).
Proof. intros st. reflexivity. Qed.

Lemma preserves_getattr {A : Type} (attribute : GraylogApi -> A) :
  preserves_self (getattr_self attribute).
Proof. intros st. reflexivity. Qed.

Lemma preserves_exchange (rq : Request) : preserves_self (exchange rq).
Proof. intros st. reflexivity. Qed.

Lemma preserves_load_global_attr {A : Type} (name attr : string) :
  preserves_self (@load_global_attr A name attr).
Proof.
  intros st. unfold load_global_attr.
  destruct (str_in name module_globals); reflexivity.
Qed.

Lemma preserves_bind {A B : Type} (m : M A) (k : A -> M B) :
  preserves_self m ->
  (forall a, preserves_self (k a)) ->
  preserves_self (bind m k).
Proof.
  intros Hm Hk st. unfold bind.
  specialize (Hm st). destruct (m st) as [[a | e] st']; cbn in *.
  - rewrite Hk. exact Hm.
  - exact Hm.
Qed.

Lemma preserves_if {A : Type} (b : bool) (m1 m2 : M A) :
  preserves_self m1 -> preserves_self m2 ->
  preserves_self (if b then m1 else m2).
Proof. destruct b; auto. Qed.

Lemma preserves_requests_get request_url hdrs auth :
  preserves_self (requests_get request_url hdrs auth).
Proof. apply preserves_exchange. Qed.

Lemma preserves_requests_put request_url json hdrs auth :
  preserves_self (requests_put request_url json hdrs auth).
Proof. apply preserves_exchange. Qed.

Lemma preserves_requests_delete request_url hdrs auth :
  preserves_self (requests_delete request_url hdrs auth).
Proof. apply preserves_exchange. Qed.

Create HintDb frame.
#[local] Hint Resolve preserves_ret preserves_raise preserves_lift
  preserves_getattr preserves_exchange preserves_load_global_attr
  preserves_requests_get preserves_requests_put preserves_requests_delete
  : frame.

Ltac frame :=
  repeat first
    [ solve [ auto with frame ]
    | apply preserves_bind; [ | intro ]
    | apply preserves_if ].

Lemma preserves_get_request (operation : string) :
  preserves_self (get_request operation).
Proof. unfold get_request. frame. Qed.

Lemma preserves_put_request (operation : string) (data : pyval) :
  preserves_self (put_request operation data).
Proof. unfold put_request. frame. Qed.

Lemma preserves_del_request (operation : string) :
  preserves_self (del_request operation).
Proof. unfold del_request. frame. Qed.

#[local] Hint Resolve preserves_get_request preserves_put_request
  preserves_del_request : frame.

(** C8: the five attributes are those [__init__] stores (the URL given or
    the default one, the token, the password [token], the two headers, the
    logger's name), construction issues no request, and every method of the
    class hands the receiver back as it got it, whatever the network and the
    decoders do. *)
Theorem configuration_set_once_and_framed :
  (forall token url_arg w,
      self (__init__ token url_arg w)
      = mkGraylogApi
          (match url_arg with
           | Some given => given
           | None => "http://127.0.0.1:9000/api/"
           end)
          token "token"
          [("Content-Type", "application/json"); ("X-Requested-By", "cli")]
          "graylogapi"
      /\ issued (world (__init__ token url_arg w)) = issued w) /\
  (forall operation, preserves_self (get_request operation)) /\
  preserves_self post_request /\
  (forall operation data, preserves_self (put_request operation data)) /\
  (forall operation, preserves_self (del_request operation)) /\
  preserves_self get_streams /\
  (forall user_id, preserves_self (delete_users_id user_id)) /\
  preserves_self get_users /\
  (forall username, preserves_self (get_users_username username)) /\
  (forall username permissions,
      preserves_self (put_users_permissions username permissions)).
Proof.
  repeat split; intros;
    unfold post_request, get_streams, delete_users_id, get_users,
      get_users_username, put_users_permissions;
    frame.
Qed.

(** ** Arguments go into the path as they are *)

Lemma str_append_empty (s : string) : s ++ "" = s.
Proof. induction s as [ | c s IH ]; cbn; [ | rewrite IH ]; reflexivity. Qed.

(** A template without braces before its closing [{}] is a prefix. *)
Lemma format_one_field_last (prefix arg : string) :
  str_contains "{" prefix = false ->
  str_format (prefix ++ "{}") arg = prefix ++ arg.
Proof.
  induction prefix as [ | c prefix IH ]; cbn [str_contains append].
  - intros _. cbn. apply str_append_empty.
  - intros H. apply orb_false_elim in H as [Hc Hp].
    cbn [str_format]. rewrite <- (IH Hp).
    unfold chr_eqb in Hc.
    destruct c as [[] [] [] [] [] [] [] []]; try reflexivity; discriminate.
Qed.

(** C10: [get_users_username] is [get_request] on the text [users/]
    followed by the argument, and [delete_users_id] feeds [del_request] the
    text [users/id/] followed by the argument: nothing is encoded or
    checked, and the request goes to whatever URL that text resolves to.
    So, under the default base URL, a user name with a slash addresses
    another resource (here the permissions of [alice]), a user name with
    [..] leaves [users/] (here for the streams collection), and a leading
    slash is dropped (the user [/x] is addressed as [x]). *)
Theorem arguments_interpolated_verbatim (username user_id : string)
    (st : State) :
  get_users_username username st = get_request ("users/" ++ username) st /\
  delete_users_id user_id st
  = bind (del_request ("users/id/" ++ user_id))
      (fun status => if (status =? 400)%Z then ret false else ret true) st /\
  (forall target,
      urljoin (url (self st)) ("users/" ++ username) = Return target ->
      issued (world (snd (get_users_username username st)))
      = (issued (world st) ++ [request_for GET (self st) target None])%list) /\
  (forall target,
      urljoin (url (self st)) ("users/id/" ++ user_id) = Return target ->
      issued (world (snd (delete_users_id user_id st)))
      = (issued (world st) ++ [request_for DELETE (self st) target None])%list) /\
  urljoin default_url (str_format "users/{}" "alice/permissions")
  = urljoin default_url (str_format "users/{}/permissions" "alice") /\
  urljoin default_url (str_format "users/{}" "../streams")
  = urljoin default_url "streams" /\
  urljoin default_url (str_format "users/id/{}" "../alice")
  = urljoin default_url (str_format "users/{}" "alice") /\
  urljoin default_url (str_format "users/{}" "/x")
  = urljoin default_url (str_format "users/{}" "x").
Proof.
  assert (Hget : get_users_username username st
                 = get_request ("users/" ++ username) st).
  { unfold get_users_username.
    now rewrite (format_one_field_last "users/" username eq_refl
                 : str_format "users/{}" username = "users/" ++ username). }
  assert (Hdel : delete_users_id user_id st
                 = bind (del_request ("users/id/" ++ user_id))
                     (fun status =>
                        if (status =? 400)%Z then ret false else ret true) st).
  { unfold delete_users_id.
    now rewrite (format_one_field_last "users/id/" user_id eq_refl
                 : str_format "users/id/{}" user_id = "users/id/" ++ user_id). }
  split; [ exact Hget | ]. split; [ exact Hdel | ].
  split; [ | split ].
  - intros target Hu. rewrite Hget, (get_request_run _ _ _ Hu). reflexivity.
  - intros target Hu. rewrite Hdel. unfold bind.
    rewrite (del_request_run _ _ _ Hu).
    destruct (serve _ _); reflexivity.
  - repeat split; reflexivity.
Qed.

(** ** Resolution of the request URL *)

(** *** Strings *)

Lemma str_remove_absent (c : ascii) (s : string) :
  str_contains c s = false -> str_remove c s = s.
Proof.
  induction s as [ | a s IH ]; cbn; [ reflexivity | ].
  intros H. apply orb_false_elim in H as [Ha Hs].
  rewrite Ha, (IH Hs). reflexivity.
Qed.

Lemma path_text_parts (p : string) :
  path_text p = true ->
  str_contains "?" p = false /\ str_contains "#" p = false /\
  str_contains ";" p = false /\ str_contains TAB p = false /\
  str_contains CR p = false /\ str_contains LF p = false.
Proof.
  unfold path_text. intros H.
  repeat (apply andb_prop in H as [H ?]).
  repeat split; now apply negb_true_iff.
Qed.

Lemma remove_unsafe_bytes_path (p : string) :
  path_text p = true -> remove_unsafe_bytes p = p.
Proof.
  intros H. apply path_text_parts in H as (_ & _ & _ & Ht & Hc & Hl).
  unfold remove_unsafe_bytes.
  now rewrite (str_remove_absent _ _ Ht), (str_remove_absent _ _ Hc),
    (str_remove_absent _ _ Hl).
Qed.

Lemma str_split_cons (c : ascii) (s : string) :
  exists h t, str_split c s = h :: t.
Proof.
  induction s as [ | a s (h & t & IH) ]; cbn.
  - eauto.
  - destruct (chr_eqb a c); [ eauto | ]. rewrite IH. eauto.
Qed.

(** A colon that comes after the first slash cannot close a scheme: the
    text before it holds the slash. *)
Lemma no_scheme_before_colon (p : string) :
  str_contains ":" (hd "" (str_split "/" p)) = false ->
  forall n, str_find ":" p = Some n ->
            str_forall scheme_char (str_take n p) = false.
Proof.
  induction p as [ | a p IH ]; cbn [str_split str_find]; [ discriminate | ].
  intros Hhd n Hfind.
  destruct (chr_eqb a "/") eqn:Eslash.
  - unfold chr_eqb in Eslash. apply Ascii.eqb_eq in Eslash. subst a.
    cbn in Hfind. destruct (str_find ":" p); inversion Hfind; subst.
    reflexivity.
  - destruct (str_split_cons "/" p) as (h & t & Hsplit).
    rewrite Hsplit in Hhd, IH. cbn [hd str_contains] in Hhd, IH.
    apply orb_false_elim in Hhd as [Hcolon Hh].
    rewrite Hcolon in Hfind.
    destruct (str_find ":" p) as [i | ]; inversion Hfind; subst.
    cbn [str_take str_forall]. rewrite (IH Hh i eq_refl).
    apply andb_false_r.
Qed.

(** *** Tables *)

Lemma str_in_In (x : string) (table : list string) :
  str_in x table = true -> In x table.
Proof.
  unfold str_in. intros H. apply existsb_exists in H as (y & Hy & E).
  apply String.eqb_eq in E. now subst.
Qed.

(** A scheme of [uses_relative] goes through the clean-up of a default
    scheme unchanged, and the network location of the base is kept for it. *)
Lemma relative_scheme_facts (bs : string) :
  str_in bs uses_relative = true ->
  remove_unsafe_bytes (str_strip c0_control_or_space bs) = bs /\
  str_in bs uses_netloc = true.
Proof.
  intros H. apply str_in_In in H. unfold uses_relative in H.
  repeat (destruct H as [<- | H]; [ split; reflexivity | ]).
  destruct H.
Qed.

(** *** Parsing a bare path *)

(** A relative path parses to itself: no scheme of its own, no network
    location, no query, no fragment. *)
Lemma urlsplit_relative_path (p bs : string) :
  relative_path p = true ->
  str_in bs uses_relative = true ->
  urlsplit p bs = Return (bs, "", p, "", "").
Proof.
  intros Hp Hbs. destruct (relative_scheme_facts bs Hbs) as [Hclean _].
  destruct p as [ | c r ]; [ discriminate | ]. cbn [relative_path] in Hp.
  apply andb_prop in Hp as [Hp Htext].
  apply andb_prop in Hp as [Hp Hcolon].
  apply andb_prop in Hp as [Hslash Hblank].
  apply negb_true_iff in Hslash, Hblank, Hcolon.
  destruct (path_text_parts _ Htext) as (Hq & Hf & _).
  unfold urlsplit. cbn [str_lstrip]. rewrite Hblank.
  rewrite (remove_unsafe_bytes_path _ Htext), Hclean.
  assert (Hscheme :
            match str_find ":" (String c r), String c r with
            | Some (S i), String c0 _ =>
                if is_ascii_alpha c0
                   && str_forall scheme_char (str_take (S i) (String c r))
                then (str_lower (str_take (S i) (String c r)),
                      str_drop (S (S i)) (String c r))
                else (bs, String c r)
            | _, _ => (bs, String c r)
            end = (bs, String c r)).
  { destruct (str_find ":" (String c r)) as [[ | i] | ] eqn:Hfind;
      try reflexivity.
    rewrite (no_scheme_before_colon _ Hcolon _ Hfind).
    now rewrite andb_false_r. }
  rewrite Hscheme.
  assert (Htwo : String.eqb (str_take 2 (String c r)) "//" = false).
  { cbn. unfold chr_eqb in Hslash. rewrite Hslash. reflexivity. }
  rewrite Htwo, Hf, Hq. reflexivity.
Qed.

(** So does an absolute path. *)
Lemma urlsplit_absolute_path (p bs : string) :
  absolute_path p = true ->
  str_in bs uses_relative = true ->
  urlsplit p bs = Return (bs, "", p, "", "").
Proof.
  intros Hp Hbs. destruct (relative_scheme_facts bs Hbs) as [Hclean _].
  destruct p as [ | c r ]; [ discriminate | ]. cbn [absolute_path] in Hp.
  apply andb_prop in Hp as [Hp Htext].
  apply andb_prop in Hp as [Hslash Hsecond].
  apply negb_true_iff in Hsecond.
  unfold chr_eqb in Hslash. apply Ascii.eqb_eq in Hslash. subst c.
  destruct (path_text_parts _ Htext) as (Hq & Hf & _).
  unfold urlsplit.
  change (str_lstrip c0_control_or_space (String "/" r)) with (String "/" r).
  rewrite (remove_unsafe_bytes_path _ Htext), Hclean.
  assert (Hscheme :
            match str_find ":" (String "/" r), String "/" r with
            | Some (S i), String c0 _ =>
                if is_ascii_alpha c0
                   && str_forall scheme_char (str_take (S i) (String "/" r))
                then (str_lower (str_take (S i) (String "/" r)),
                      str_drop (S (S i)) (String "/" r))
                else (bs, String "/" r)
            | _, _ => (bs, String "/" r)
            end = (bs, String "/" r)).
  { destruct (str_find ":" (String "/" r)) as [[ | i] | ]; reflexivity. }
  rewrite Hscheme.
  assert (Htwo : String.eqb (str_take 2 (String "/" r)) "//" = false).
  { destruct r as [ | d r' ]; [ reflexivity | ].
    cbn in Hsecond |- *. exact Hsecond. }
  rewrite Htwo, Hf, Hq. reflexivity.
Qed.

Lemma urlparse_bare_path (p bs : string) :
  relative_path p = true \/ absolute_path p = true ->
  str_in bs uses_relative = true ->
  urlparse p bs = Return (bs, "", p, "", "", "").
Proof.
  intros Hp Hbs. unfold urlparse.
  assert (Hsplit : urlsplit p bs = Return (bs, "", p, "", "")).
  { destruct Hp; [ now apply urlsplit_relative_path
                 | now apply urlsplit_absolute_path ]. }
  assert (Hsemi : str_contains ";" p = false).
  { destruct Hp as [Hp | Hp]; destruct p as [ | c r ]; try discriminate;
      cbn [relative_path absolute_path] in Hp;
      apply andb_prop in Hp as [_ Htext];
      now destruct (path_text_parts _ Htext) as (_ & _ & Hs & _). }
  rewrite Hsplit, Hsemi, andb_false_r. reflexivity.
Qed.

(** *** Joining a bare path to a parsed base *)

Lemma str_in_refl_eqb (x : string) : negb (String.eqb x x) = false.
Proof. now rewrite String.eqb_refl. Qed.

(** A relative path is merged with the directory of the base path; the
    parameters, query and fragment of the base are dropped. *)
Lemma urljoin_relative_path (base p bs bn bpath bparams bq bf : string) :
  is_empty base = false ->
  urlparse base "" = Return (bs, bn, bpath, bparams, bq, bf) ->
  str_in bs uses_relative = true ->
  relative_path p = true ->
  urljoin base p = Return (urlunsplit (bs, bn, merge_paths bpath p, "", "")).
Proof.
  intros Hbase Hparse Hbs Hp.
  destruct (relative_scheme_facts bs Hbs) as [_ Hnet].
  unfold urljoin. rewrite Hbase, Hparse.
  rewrite (urlparse_bare_path p bs (or_introl Hp) Hbs).
  destruct p as [ | c r ]; [ discriminate | ].
  cbn [is_empty]. rewrite str_in_refl_eqb, Hbs, Hnet. cbn [negb orb andb].
  assert (Hone : String.eqb (str_take 1 (String c r)) "/" = false).
  { cbn [relative_path] in Hp. repeat (apply andb_prop in Hp as [Hp _]).
    apply negb_true_iff in Hp. unfold chr_eqb in Hp.
    cbn. rewrite Hp. reflexivity. }
  rewrite Hone. reflexivity.
Qed.

(** An absolute path stands in for the base path: the result takes the
    scheme and the network location of the base and nothing else from it. *)
Lemma urljoin_absolute_path (base p bs bn bpath bparams bq bf : string) :
  is_empty base = false ->
  urlparse base "" = Return (bs, bn, bpath, bparams, bq, bf) ->
  str_in bs uses_relative = true ->
  absolute_path p = true ->
  urljoin base p
  = Return (urlunsplit (bs, bn, resolve_segments (str_split "/" p), "", "")).
Proof.
  intros Hbase Hparse Hbs Hp.
  destruct (relative_scheme_facts bs Hbs) as [_ Hnet].
  unfold urljoin. rewrite Hbase, Hparse.
  rewrite (urlparse_bare_path p bs (or_intror Hp) Hbs).
  destruct p as [ | c r ]; [ discriminate | ].
  cbn [is_empty]. rewrite str_in_refl_eqb, Hbs, Hnet. cbn [negb orb andb].
  assert (Hone : String.eqb (str_take 1 (String c r)) "/" = true).
  { cbn [absolute_path] in Hp. repeat (apply andb_prop in Hp as [Hp _]).
    unfold chr_eqb in Hp. cbn. rewrite Hp. reflexivity. }
  rewrite Hone. reflexivity.
Qed.

(** *** Segments without dots *)

Lemma concat_split (c : ascii) (s : string) :
  String.concat (String c "") (str_split c s) = s.
Proof.
  induction s as [ | a s IH ]; cbn [str_split]; [ reflexivity | ].
  destruct (str_split_cons c s) as (h & t & Hsplit).
  rewrite Hsplit in IH |- *.
  destruct (chr_eqb a c) eqn:E.
  - unfold chr_eqb in E. apply Ascii.eqb_eq in E. subst a.
    change (String.concat (String c "") ("" :: h :: t))
      with (String c (String.concat (String c "") (h :: t))).
    now rewrite IH.
  - rewrite <- IH. destruct t; reflexivity.
Qed.

Lemma str_append_assoc (a b c : string) : (a ++ b) ++ c = a ++ b ++ c.
Proof. induction a as [ | x a IH ]; cbn; [ | rewrite IH ]; reflexivity. Qed.

Lemma concat_app (sep : string) (l1 l2 : list string) :
  l1 <> [] -> l2 <> [] ->
  String.concat sep (l1 ++ l2)%list
  = String.concat sep l1 ++ sep ++ String.concat sep l2.
Proof.
  intros H1 H2. induction l1 as [ | x l1 IH ]; [ contradiction | ].
  destruct l1 as [ | y l1 ].
  - destruct l2; [ contradiction | reflexivity ].
  - change (String.concat sep ((x :: y :: l1) ++ l2)%list)
      with (x ++ sep ++ String.concat sep ((y :: l1) ++ l2)%list).
    rewrite IH by discriminate.
    change (String.concat sep (x :: y :: l1))
      with (x ++ sep ++ String.concat sep (y :: l1)).
    now rewrite !str_append_assoc.
Qed.

Lemma resolve_fold_no_dots (segments acc : list string) :
  forallb (fun seg => negb (dot_segment seg)) segments = true ->
  fold_left resolve_step segments acc = (acc ++ segments)%list.
Proof.
  revert acc. induction segments as [ | seg segments IH ]; intros acc H.
  - now rewrite app_nil_r.
  - cbn in H. apply andb_prop in H as [Hseg Hrest].
    cbn [fold_left]. rewrite (IH _ Hrest).
    unfold resolve_step. unfold dot_segment in Hseg.
    apply negb_true_iff, orb_false_elim in Hseg as [Hdot Hdots].
    rewrite Hdot, Hdots. now rewrite <- app_assoc.
Qed.

Lemma last_no_dots (segments : list string) :
  forallb (fun seg => negb (dot_segment seg)) segments = true ->
  dot_segment (last segments "") = false.
Proof.
  induction segments as [ | seg segments IH ]; [ reflexivity | ].
  cbn [forallb]. intros H. apply andb_prop in H as [Hseg Hrest].
  destruct segments; [ now apply negb_true_iff | now apply IH ].
Qed.

(** Without dot segments, resolution is the join. *)
Lemma resolve_segments_no_dots (segments : list string) :
  forallb (fun seg => negb (dot_segment seg)) segments = true ->
  resolve_segments segments
  = if is_empty (String.concat "/" segments) then "/"
    else String.concat "/" segments.
Proof.
  intros H. unfold resolve_segments.
  rewrite (resolve_fold_no_dots _ [] H). cbn [app].
  pose proof (last_no_dots _ H) as Hlast. unfold dot_segment in Hlast.
  now rewrite Hlast.
Qed.

(** *** A directory as base *)

Lemma filter_plain (segments : list string) :
  forallb plain_segment segments = true ->
  filter (fun seg => negb (is_empty seg)) segments = segments.
Proof.
  induction segments as [ | seg segments IH ]; [ reflexivity | ].
  cbn. intros H. apply andb_prop in H as [Hseg Hrest].
  unfold plain_segment in Hseg. apply andb_prop in Hseg as [Hne _].
  now rewrite Hne, (IH Hrest).
Qed.

Lemma plain_no_dots (segments : list string) :
  forallb plain_segment segments = true ->
  forallb (fun seg => negb (dot_segment seg)) segments = true.
Proof.
  induction segments as [ | seg segments IH ]; [ reflexivity | ].
  cbn. intros H. apply andb_prop in H as [Hseg Hrest].
  unfold plain_segment in Hseg. apply andb_prop in Hseg as [_ Hdot].
  now rewrite Hdot, (IH Hrest).
Qed.

Lemma is_empty_append_cons (a : string) (c : ascii) (b : string) :
  is_empty (a ++ String c b) = false.
Proof. destruct a; reflexivity. Qed.

(** The segments of a directory path: an empty one, plain ones, an empty
    one. *)
Lemma directory_path_segments (bpath : string) :
  directory_path bpath = true ->
  exists middle,
    str_split "/" bpath = ("" :: middle ++ [""])%list
    /\ forallb plain_segment middle = true.
Proof.
  unfold directory_path.
  destruct (str_split "/" bpath) as [ | first rest ]; [ discriminate | ].
  intros H. apply andb_prop in H as [H Hmid]. apply andb_prop in H as [Hf Hl].
  destruct first; [ | discriminate ].
  destruct rest as [ | x rest ]; [ discriminate | ].
  exists (removelast (x :: rest)). split; [ | exact Hmid ].
  f_equal. rewrite (app_removelast_last "." (l := x :: rest)) at 1
    by discriminate.
  destruct (last (x :: rest) "."); [ reflexivity | discriminate ].
Qed.

Lemma plain_segments_split (segments : list string) :
  segments <> [] ->
  plain_segments segments = true ->
  exists front final,
    segments = (front ++ [final])%list
    /\ forallb plain_segment front = true
    /\ dot_segment final = false.
Proof.
  intros Hne H. unfold plain_segments in H.
  apply andb_prop in H as [Hfront Hfinal].
  exists (removelast segments), (last segments "").
  repeat split; [ now apply app_removelast_last | exact Hfront
                | now apply negb_true_iff ].
Qed.

Lemma split_without_separator (c : ascii) (s : string) :
  str_contains c s = false -> str_split c s = [s].
Proof.
  induction s as [ | a s IH ]; [ reflexivity | ].
  cbn. intros H. apply orb_false_elim in H as [Ha Hs].
  now rewrite Ha, (IH Hs).
Qed.

(** Appending a text without separator only extends the last segment. *)
Lemma split_append_leaf (c : ascii) (dir leaf : string) :
  str_contains c leaf = false ->
  str_split c (dir ++ leaf)
  = (removelast (str_split c dir)
       ++ [(last (str_split c dir) "" ++ leaf)%string])%list.
Proof.
  intros Hleaf. induction dir as [ | a dir IH ].
  - cbn. now apply split_without_separator.
  - cbn [append str_split]. rewrite IH.
    destruct (str_split_cons c dir) as (h & t & E). rewrite E.
    destruct (chr_eqb a c).
    + reflexivity.
    + destruct t; reflexivity.
Qed.

(** Between the first and the last segment the empty ones go, the plain
    ones stay. *)
Lemma drop_inner_empty_blanks (middle blanks front : list string)
    (final : string) :
  forallb plain_segment middle = true ->
  forallb is_empty blanks = true ->
  forallb plain_segment front = true ->
  drop_inner_empty ("" :: middle ++ blanks ++ front ++ [final])%list
  = ("" :: middle ++ front ++ [final])%list.
Proof.
  intros Hmiddle Hblanks Hfront. cbn [drop_inner_empty].
  assert (Hrest : (middle ++ blanks ++ front ++ [final])%list
                  = ((middle ++ blanks ++ front) ++ [final])%list)
    by now rewrite <- !app_assoc.
  rewrite Hrest.
  destruct ((middle ++ blanks ++ front) ++ [final])%list eqn:E.
  { now destruct (middle ++ blanks ++ front)%list. }
  rewrite <- E, removelast_last, last_last, !filter_app.
  assert (Hnone : filter (fun seg => negb (is_empty seg)) blanks = []).
  { clear - Hblanks. induction blanks as [ | b blanks IH ]; [ reflexivity | ].
    cbn in Hblanks |- *. apply andb_prop in Hblanks as [Hb Hrest].
    now rewrite Hb, (IH Hrest). }
  now rewrite (filter_plain _ Hmiddle), (filter_plain _ Hfront), Hnone,
    <- app_assoc.
Qed.

(** Merging keeps the directory of the base path and drops what follows
    its last slash; on plain segments the rest is appending. *)
Lemma merge_paths_leaf (dir leaf p : string) :
  directory_path dir = true ->
  str_contains "/" leaf = false ->
  plain_segments (str_split "/" p) = true ->
  merge_paths (dir ++ leaf) p = dir ++ p.
Proof.
  intros Hdir Hleaf Hplain.
  destruct (directory_path_segments _ Hdir) as (middle & Hb & Hmiddle).
  assert (Hne : str_split "/" p <> []).
  { destruct (str_split_cons "/" p) as (h & t & E). rewrite E. discriminate. }
  destruct (plain_segments_split _ Hne Hplain)
    as (front & final & Hp & Hfront & Hfinal).
  unfold merge_paths. rewrite (split_append_leaf _ _ _ Hleaf), Hb, Hp.
  change ("" :: middle ++ [""])%list with (("" :: middle) ++ [""])%list.
  rewrite removelast_last, last_last. cbn [append].
  assert (Hsegments :
            drop_inner_empty
              (base_directory (("" :: middle) ++ [leaf]) ++ front ++ [final])%list
            = ("" :: middle ++ front ++ [final])%list).
  { unfold base_directory. rewrite last_last, removelast_last.
    destruct leaf as [ | c leaf ]; cbn [is_empty negb].
    - rewrite <- app_assoc.
      now apply (drop_inner_empty_blanks middle [""] front final).
    - now apply (drop_inner_empty_blanks middle [] front final). }
  rewrite Hsegments.
  assert (Hdots :
            forallb (fun seg => negb (dot_segment seg))
              ("" :: middle ++ front ++ [final])%list = true).
  { cbn [forallb]. rewrite !forallb_app.
    rewrite (plain_no_dots _ Hmiddle), (plain_no_dots _ Hfront).
    cbn. now rewrite Hfinal. }
  rewrite (resolve_segments_no_dots _ Hdots).
  assert (Hjoin : String.concat "/" ("" :: middle ++ front ++ [final])%list
                  = dir ++ p).
  { rewrite <- (concat_split "/" dir) at 1.
    rewrite <- (concat_split "/" p) at 1. rewrite Hb, Hp.
    change ("" :: middle ++ front ++ [final])%list
      with (("" :: middle) ++ front ++ [final])%list.
    change ("" :: middle ++ [""])%list with (("" :: middle) ++ [""])%list.
    rewrite !(concat_app "/" ("" :: middle)) by
      (try discriminate; now destruct front).
    cbn [String.concat]. now rewrite !str_append_assoc. }
  rewrite Hjoin.
  assert (Hnonempty : is_empty (dir ++ p) = false).
  { rewrite <- (concat_split "/" dir), Hb. now destruct middle. }
  now rewrite Hnonempty.
Qed.

(** A directory path is a slash, then something that is not a slash. *)
Lemma directory_path_slash (bpath : string) :
  directory_path bpath = true ->
  exists r, bpath = String "/" r /\ String.eqb (str_take 1 r) "/" = false.
Proof.
  unfold directory_path. destruct bpath as [ | a r ]; [ discriminate | ].
  cbn [str_split].
  destruct (str_split_cons "/" r) as (h & t & E). rewrite E.
  destruct (chr_eqb a "/") eqn:Ea; [ | discriminate ].
  unfold chr_eqb in Ea. apply Ascii.eqb_eq in Ea. subst a.
  intros H. exists r. split; [ reflexivity | ].
  destruct r as [ | d r' ]; [ reflexivity | ].
  cbn [str_split] in E.
  destruct (str_split_cons "/" r') as (h' & t' & E'). rewrite E' in E.
  cbn [str_take]. destruct (chr_eqb d "/") eqn:Ed.
  - injection E as E1 E2. subst h t.
    apply andb_prop in H as [_ H]. cbn in H. discriminate.
  - unfold chr_eqb in Ed. cbn. now rewrite Ed.
Qed.

(** Recomposition commutes with appending a relative path to a directory. *)
Lemma urlunsplit_append_path (bs bn dir p : string) :
  directory_path dir = true ->
  relative_path p = true ->
  urlunsplit (bs, bn, dir ++ p, "", "") = urlunsplit (bs, bn, dir, "", "") ++ p.
Proof.
  intros Hdir Hp.
  destruct (directory_path_slash _ Hdir) as (r & -> & Hr).
  destruct p as [ | c q ]; [ discriminate | ].
  cbn [relative_path] in Hp. repeat (apply andb_prop in Hp as [Hp _]).
  apply negb_true_iff in Hp. unfold chr_eqb in Hp.
  assert (Htwo : String.eqb (str_take 2 (String "/" r ++ String c q)) "//"
                 = String.eqb (str_take 2 (String "/" r)) "//").
  { destruct r as [ | d r' ]; [ cbn; now rewrite Hp | reflexivity ]. }
  unfold urlunsplit. rewrite Htwo.
  set (cond := negb (is_empty bn)
               || negb (is_empty bs) && str_in bs uses_netloc
                  && negb (String.eqb (str_take 2 (String "/" r)) "//")).
  cbn [append is_empty negb andb str_take].
  change (String.eqb (String "/" "") "/") with true. cbn [negb].
  destruct cond, (negb (is_empty bs)); cbn [append];
    repeat (progress (rewrite ?str_append_assoc; cbn [append]));
    reflexivity.
Qed.

(** *** The URL of the three primitives *)

Lemma requests_addressed_to_resolved (operation : string) (data : pyval)
    (st : State) (u : string) :
  urljoin (url (self st)) operation = Return u ->
  requests_addressed_to operation data st u.
Proof.
  intros Hu. unfold requests_addressed_to.
  rewrite (get_request_run _ _ _ Hu), (put_request_run _ data _ _ Hu),
    (del_request_run _ _ _ Hu).
  repeat split; reflexivity.
Qed.

(** Two leading slashes do not make an absolute path: they announce a
    network location, which replaces that of the base, and an empty one
    leaves the base as it is. *)
Remark urljoin_network_path_reference :
  urljoin default_url "//other.example/x" = Return "http://other.example/x"
  /\ urljoin default_url "//" = Return default_url.
Proof. split; reflexivity. Qed.

(** C7: [get_request], [put_request] and [del_request] address their
    request to the URL that [urljoin] resolves from the base URL and the
    operation path.  With a base URL that parses to scheme [bs] (one that
    allows relative references), network location [bn] and path [bpath]:
    - a relative path is merged with the directory of [bpath]; on plain
      segments that is the base up to the last slash of its path, followed
      by the operation path, so what comes after that slash in the base is
      dropped, and a base that ends in its directory is simply extended;
    - an absolute path takes the place of [bpath]: the URL is made of [bs],
      [bn] and the operation path (its dot segments resolved), with nothing
      left of the base path, parameters, query or fragment;
    - the empty path leaves the base URL as it is. *)
Theorem request_url_resolution (operation : string) (data : pyval)
    (st : State) (bs bn bpath bparams bq bf : string) :
  is_empty (url (self st)) = false ->
  urlparse (url (self st)) "" = Return (bs, bn, bpath, bparams, bq, bf) ->
  str_in bs uses_relative = true ->
  (relative_path operation = true ->
   requests_addressed_to operation data st
     (urlunsplit (bs, bn, merge_paths bpath operation, "", ""))) /\
  (relative_path operation = true ->
   plain_segments (str_split "/" operation) = true ->
   forall dir leaf,
     bpath = dir ++ leaf ->
     directory_path dir = true ->
     str_contains "/" leaf = false ->
     requests_addressed_to operation data st
       (urlunsplit (bs, bn, dir, "", "") ++ operation)) /\
  (relative_path operation = true ->
   plain_segments (str_split "/" operation) = true ->
   directory_path bpath = true ->
   urlunsplit (bs, bn, bpath, "", "") = url (self st) ->
   requests_addressed_to operation data st (url (self st) ++ operation)) /\
  (absolute_path operation = true ->
   requests_addressed_to operation data st
     (urlunsplit (bs, bn, resolve_segments (str_split "/" operation), "", ""))) /\
  (absolute_path operation = true ->
   forallb (fun seg => negb (dot_segment seg)) (str_split "/" operation)
   = true ->
   requests_addressed_to operation data st
     (urlunsplit (bs, bn, operation, "", ""))) /\
  (operation = "" ->
   requests_addressed_to operation data st (url (self st))).
Proof.
  intros Hbase Hparse Hbs.
  assert (Hleaf : forall dir leaf,
             relative_path operation = true ->
             plain_segments (str_split "/" operation) = true ->
             bpath = dir ++ leaf ->
             directory_path dir = true ->
             str_contains "/" leaf = false ->
             requests_addressed_to operation data st
               (urlunsplit (bs, bn, dir, "", "") ++ operation)).
  { intros dir leaf Hrel Hplain -> Hdir Hleaf.
    apply requests_addressed_to_resolved.
    rewrite (urljoin_relative_path _ _ _ _ _ _ _ _ Hbase Hparse Hbs Hrel).
    rewrite (merge_paths_leaf _ _ _ Hdir Hleaf Hplain).
    now rewrite (urlunsplit_append_path _ _ _ _ Hdir Hrel). }
  split; [ | split; [ | split; [ | split; [ | split ] ] ] ].
  - intros Hrel. apply requests_addressed_to_resolved.
    now apply urljoin_relative_path with bparams bq bf.
  - intros Hrel Hplain dir leaf. now apply Hleaf.
  - intros Hrel Hplain Hdir Hround. rewrite <- Hround.
    apply (Hleaf bpath ""); auto. now rewrite str_append_empty.
  - intros Habs. apply requests_addressed_to_resolved.
    now apply urljoin_absolute_path with bpath bparams bq bf.
  - intros Habs Hdots. apply requests_addressed_to_resolved.
    rewrite (urljoin_absolute_path _ _ _ _ _ _ _ _ Hbase Hparse Hbs Habs).
    rewrite (resolve_segments_no_dots _ Hdots), concat_split.
    destruct operation; [ discriminate | reflexivity ].
  - intros ->. apply requests_addressed_to_resolved.
    unfold urljoin. now rewrite Hbase.
Qed.

(** ** Every call against its planned exchange *)

Lemma get_request_unresolved (operation : string) (st : State) (e : exn) :
  urljoin (url (self st)) operation = Raise e ->
  get_request operation st = (Raise e, st).
Proof.
  intros Hu.
  unfold get_request, bind, getattr_self, lift. rewrite Hu. reflexivity.
Qed.

Lemma put_request_unresolved (operation : string) (data : pyval)
    (st : State) (e : exn) :
  urljoin (url (self st)) operation = Raise e ->
  put_request operation data st = (Raise e, st).
Proof.
  intros Hu.
  unfold put_request, bind, getattr_self, lift. rewrite Hu. reflexivity.
Qed.

Lemma format_users (username : string) :
  str_format "users/{}" username = "users/" ++ username.
Proof. exact (format_one_field_last "users/" username eq_refl). Qed.

Lemma format_users_id (user_id : string) :
  str_format "users/id/{}" user_id = "users/id/" ++ user_id.
Proof. exact (format_one_field_last "users/id/" user_id eq_refl). Qed.

Lemma format_permissions (username : string) :
  str_format "users/{}/permissions" username
  = "users/" ++ username ++ "/permissions".
Proof. reflexivity. Qed.

(** Unfolds a call down to its primitive, on the path of the table. *)
Ltac to_primitive :=
  cbn [invoke];
  unfold get_streams, delete_users_id, get_users, get_users_username,
    put_users_permissions, bind;
  cbv zeta;
  rewrite ?format_users, ?format_users_id, ?format_permissions;
  cbn [append].

Ltac planned H :=
  cbn [planned_request append] in H; try discriminate;
  injection H as <- <- <-.

(** X1: every call issues the one exchange planned for it and no other:
    when the operation path resolves to [u], the call leaves the state with
    exactly one more request, of the planned method, addressed to [u], with
    the planned payload and the object's headers and credentials, whatever
    the network answers; [post_request] returns [None] and leaves the state
    alone. *)
Theorem call_issues_planned_exchange (c : call) (st : State) :
  (forall meth operation json u,
      planned_request c = Some (meth, operation, json) ->
      urljoin (url (self st)) operation = Return u ->
      snd (invoke c st)
      = after_exchange st (request_for meth (self st) u json)) /\
  (planned_request c = None -> invoke c st = (Return PyNone, st)).
Proof.
  split.
  - intros meth operation json u Hplan Hu.
    destruct c; planned Hplan; to_primitive;
      first [ rewrite (get_request_run _ _ _ Hu)
            | rewrite (put_request_run _ _ _ _ Hu)
            | rewrite (del_request_run _ _ _ Hu) ];
      destruct (serve _ _) as [r | e]; try reflexivity;
      try (destruct (status_code r =? 200)%Z; try reflexivity;
           destruct (result_bind _ _); reflexivity);
      try (destruct (status_code r =? 400)%Z; reflexivity).
  - intros Hplan. destruct c; try discriminate. reflexivity.
Qed.

(** X2: when the operation path does not resolve, the call raises what
    [urljoin] raised and nothing has happened: no request, same state. *)
Theorem call_unresolved_raises_untouched (c : call) (st : State)
    (meth : http_method) (operation : string) (json : option pyval)
    (e : exn) :
  planned_request c = Some (meth, operation, json) ->
  urljoin (url (self st)) operation = Raise e ->
  invoke c st = (Raise e, st).
Proof.
  intros Hplan Hu.
  destruct c; planned Hplan; to_primitive;
    first [ rewrite (get_request_unresolved _ _ _ Hu)
          | rewrite (put_request_unresolved _ _ _ _ Hu)
          | rewrite (del_request_unresolved _ _ _ Hu) ];
    reflexivity.
Qed.

(** X3: no call catches the transport: when the exchange raises, the call
    raises the same exception, after the request has been issued. *)
Theorem call_transport_failure_propagates (c : call) (st : State)
    (meth : http_method) (operation : string) (json : option pyval)
    (u : string) (e : exn) :
  planned_request c = Some (meth, operation, json) ->
  urljoin (url (self st)) operation = Return u ->
  serve (issued (world st)) (request_for meth (self st) u json) = Raise e ->
  invoke c st
  = (Raise e, after_exchange st (request_for meth (self st) u json)).
Proof.
  intros Hplan Hu Hserve.
  destruct c; planned Hplan; to_primitive;
    first [ rewrite (get_request_run _ _ _ Hu)
          | rewrite (put_request_run _ _ _ _ Hu)
          | rewrite (del_request_run _ _ _ Hu) ];
    rewrite Hserve; reflexivity.
Qed.

(** ** Sequences of calls *)

(** The state after a call, in one equation. *)
Lemma invoke_state (c : call) (st : State) :
  snd (invoke c st)
  = match planned_request c with
    | None => st
    | Some (meth, operation, json) =>
        match urljoin (url (self st)) operation with
        | Return u => after_exchange st (request_for meth (self st) u json)
        | Raise _ => st
        end
    end.
Proof.
  destruct c; cbn [planned_request append]; try reflexivity;
    match goal with
    | |- context [urljoin ?b ?o] =>
        destruct (urljoin b o) as [u | e] eqn:Hu
    end;
    to_primitive;
    first [ rewrite (get_request_run _ _ _ Hu)
          | rewrite (put_request_run _ _ _ _ Hu)
          | rewrite (del_request_run _ _ _ Hu)
          | rewrite (get_request_unresolved _ _ _ Hu)
          | rewrite (put_request_unresolved _ _ _ _ Hu)
          | rewrite (del_request_unresolved _ _ _ Hu) ];
    try reflexivity;
    destruct (serve _ _) as [r | e]; try reflexivity;
    try (destruct (status_code r =? 200)%Z; try reflexivity;
         destruct (result_bind _ _); reflexivity);
    try (destruct (status_code r =? 400)%Z; reflexivity).
Qed.

Lemma planned_payload (c : call) (meth : http_method) (operation : string)
    (json : option pyval) :
  planned_request c = Some (meth, operation, json) ->
  (json <> None <-> meth = PUT).
Proof.
  destruct c; cbn [planned_request]; intros H; try discriminate;
    injection H as <- <- <-; split; congruence.
Qed.

(** What a run of calls adds to the world, for any receiver. *)
Lemma invoke_all_requests (cs : list call) (st : State) :
  self (invoke_all cs st) = self st /\
  logger_levels (world (invoke_all cs st)) = logger_levels (world st) /\
  exists new,
    issued (world (invoke_all cs st)) = (issued (world st) ++ new)%list
    /\ (length new <= length cs)%nat
    /\ Forall (fun rq =>
                 req_headers rq = headers (self st)
                 /\ req_auth rq
                    = (api_token (self st), api_token_password (self st))
                 /\ (req_json rq <> None <-> req_method rq = PUT)) new.
Proof.
  revert st. induction cs as [ | c cs IH ]; intros st; cbn [invoke_all].
  - repeat split. exists []. rewrite app_nil_r. repeat split; auto.
  - destruct (IH (snd (invoke c st))) as (Hself & Hlevels & new & Hnew & Hlen & Hall).
    rewrite Hself, Hlevels, Hnew. clear Hself Hlevels Hnew.
    rewrite invoke_state in *.
    destruct (planned_request c) as [[[meth operation] json] | ] eqn:Hplan.
    + destruct (urljoin (url (self st)) operation) as [u | e].
      * cbn [after_exchange self world issued logger_levels] in *.
        repeat split.
        exists (request_for meth (self st) u json :: new).
        rewrite <- app_assoc. repeat split; cbn [length app]; try lia.
        constructor; [ | exact Hall ].
        cbn. repeat split; try apply (planned_payload _ _ _ _ Hplan).
      * repeat split. exists new. repeat split; cbn [length]; auto.
    + repeat split. exists new. repeat split; cbn [length]; auto.
Qed.

(** X4: whatever calls are made on a client built with [token], in
    whatever order and with whatever outcomes, the receiver stays the one
    [__init__] built, and every request the calls add carries the two fixed
    headers and the pair of the token and the password [token]; only a PUT
    has a JSON payload; no call adds more than one request. *)
Theorem every_request_carries_credentials (token : string)
    (url_arg : option string) (w : World) (cs : list call) :
  self (invoke_all cs (__init__ token url_arg w))
  = self (__init__ token url_arg w) /\
  exists new,
    issued (world (invoke_all cs (__init__ token url_arg w)))
    = (issued w ++ new)%list
    /\ (length new <= length cs)%nat
    /\ Forall (client_request token) new.
Proof.
  destruct (invoke_all_requests cs (__init__ token url_arg w))
    as (Hself & _ & new & Hnew & Hlen & Hall).
  split; [ exact Hself | ]. exists new. repeat split; auto.
Qed.

(** X8: the level of the logger [graylogapi] is set at construction, over
    whatever level it had, and by nothing else: constructing a client leaves
    the other loggers alone, and no call, alone or in a sequence, changes
    the level of any logger. *)
Theorem logger_level_set_at_construction_only :
  (forall token url_arg w name,
      logger_level name (world (__init__ token url_arg w))
      = if String.eqb name "graylogapi" then WARNING else logger_level name w)
  /\ (forall c st,
         logger_levels (world (snd (invoke c st)))
         = logger_levels (world st))
  /\ (forall cs st name,
         logger_level name (world (invoke_all cs st))
         = logger_level name (world st)).
Proof.
  split; [ | split ].
  - intros token url_arg w name. reflexivity.
  - intros c st. rewrite invoke_state.
    destruct (planned_request c) as [[[meth operation] json] | ];
      [ destruct (urljoin _ _) | ]; reflexivity.
  - intros cs st name. unfold logger_level.
    now destruct (invoke_all_requests cs st) as (_ & -> & _).
Qed.

(** ** Reading an outcome backwards *)

(** X5: what an outcome of [get_request] tells.  A value comes back only
    from an answered GET: it is the parsed body of a 200, or [None] for any
    other status.  An exception is only ever the one of URL resolution, of
    the transport, or of decoding the body of a 200: no status raises. *)
Theorem get_request_outcomes (operation : string) (st : State) :
  (forall v,
      fst (get_request operation st) = Return v ->
      exists u r,
        urljoin (url (self st)) operation = Return u
        /\ delivers st (request_for GET (self st) u None) r
        /\ ((status_code r = 200%Z
             /\ result_bind (decode_utf8 (content r)) json_loads = Return v)
            \/ (status_code r <> 200%Z /\ v = PyNone))) /\
  (forall e,
      fst (get_request operation st) = Raise e ->
      urljoin (url (self st)) operation = Raise e
      \/ exists u,
          urljoin (url (self st)) operation = Return u
          /\ (serve (issued (world st)) (request_for GET (self st) u None)
              = Raise e
              \/ exists r,
                  delivers st (request_for GET (self st) u None) r
                  /\ status_code r = 200%Z
                  /\ result_bind (decode_utf8 (content r)) json_loads
                     = Raise e)).
Proof.
  destruct (urljoin (url (self st)) operation) as [u | e0] eqn:Hu.
  - rewrite (get_request_run _ _ _ Hu). cbn [fst]. unfold delivers.
    destruct (serve _ _) as [r | e1] eqn:Hserve.
    + destruct (Z.eqb_spec (status_code r) 200) as [E | E]; split.
      * intros v Hv. exists u, r. auto.
      * intros e He. right. exists u. split; [ reflexivity | ].
        right. exists r. auto.
      * intros v Hv. exists u, r. injection Hv as <-. auto.
      * intros e He. discriminate.
    + split; [ discriminate | ].
      intros e He. injection He as <-. right. exists u. auto.
  - rewrite (get_request_unresolved _ _ _ Hu). cbn [fst].
    split; [ discriminate | ]. intros e He. injection He as <-. now left.
Qed.

(** X6: [get_streams] returns a value only when the GET on [streams] was
    answered with status 200 and a body that parses to an object holding a
    [streams] member, and the value is that member's. *)
Theorem get_streams_returns_only_member (st : State) (v : pyval) :
  fst (get_streams st) = Return v ->
  exists u r text d,
    urljoin (url (self st)) "streams" = Return u
    /\ delivers st (request_for GET (self st) u None) r
    /\ status_code r = 200%Z
    /\ decode_utf8 (content r) = Return text
    /\ json_loads text = Return (PyDict d)
    /\ dict_get "streams" d = Some v.
Proof.
  unfold get_streams, bind, delivers.
  destruct (urljoin (url (self st)) "streams") as [u | e0] eqn:Hu.
  - rewrite (get_request_run _ _ _ Hu).
    destruct (serve _ _) as [r | e1] eqn:Hserve; [ | discriminate ].
    destruct (Z.eqb_spec (status_code r) 200) as [E | E]; [ | discriminate ].
    destruct (decode_utf8 (content r)) as [text | e2] eqn:Hd;
      [ | discriminate ].
    cbn [result_bind].
    destruct (json_loads text) as [obj | e3] eqn:Hj; [ | discriminate ].
    unfold lift, py_getitem. cbn [fst].
    destruct obj; try discriminate.
    destruct (dict_get "streams" d) as [member | ] eqn:Hget;
      [ | discriminate ].
    intros H. injection H as <-. exists u, r, text, d. auto 7.
  - rewrite (get_request_unresolved _ _ _ Hu). discriminate.
Qed.

(** X9: [put_users_permissions] returns a boolean only when its PUT was
    answered: [False] means the status was 400, [True] means it was any
    other status, error statuses included. *)
Theorem put_users_permissions_result_meaning (username : string)
    (permissions : pyval) (st : State) (b : bool) :
  fst (put_users_permissions username permissions st) = Return b ->
  exists u r,
    urljoin (url (self st)) ("users/" ++ username ++ "/permissions")
    = Return u
    /\ delivers st
         (request_for PUT (self st) u
            (Some (PyDict [("permissions", permissions)]))) r
    /\ (b = false <-> status_code r = 400%Z).
Proof.
  unfold put_users_permissions, bind, delivers. cbv zeta.
  rewrite format_permissions.
  destruct (urljoin (url (self st))
              ("users/" ++ username ++ "/permissions")) as [u | e0] eqn:Hu.
  - rewrite (put_request_run _ _ _ _ Hu).
    destruct (serve _ _) as [r | e1] eqn:Hserve; [ | discriminate ].
    destruct (Z.eqb_spec (status_code r) 400) as [E | E]; cbn;
      intros H; injection H as <-; exists u, r;
      repeat split; auto; congruence.
  - rewrite (put_request_unresolved _ _ _ _ Hu). discriminate.
Qed.

(** X10: for every user id, [delete_users_id] returns nothing, and yet,
    when the path resolves, its DELETE has been issued by the time it
    raises: the user may be gone although the caller sees an exception. *)
Theorem delete_users_id_sends_then_raises (user_id : string) (st : State) :
  (forall b, fst (delete_users_id user_id st) <> Return b) /\
  (forall target,
      urljoin (url (self st)) ("users/id/" ++ user_id) = Return target ->
      exists e,
        delete_users_id user_id st
        = (Raise e,
           after_exchange st
             (request_for DELETE (self st) target None))).
Proof.
  split; [ intros b; apply delete_users_id_never_returns | ].
  intros target Hu. unfold delete_users_id, bind.
  rewrite format_users_id, (del_request_run _ _ _ Hu).
  destruct (serve _ _); eexists; reflexivity.
Qed.

(** ** Endpoint calls stay on the server of the base URL *)

(** Without a colon in the first segment, no scheme is read off a text. *)
Lemma no_scheme_detected (p bs : string) :
  str_contains ":" (hd "" (str_split "/" p)) = false ->
  match str_find ":" p, p with
  | Some (S i), String c0 _ =>
      if is_ascii_alpha c0 && str_forall scheme_char (str_take (S i) p)
      then (str_lower (str_take (S i) p), str_drop (S (S i)) p)
      else (bs, p)
  | _, _ => (bs, p)
  end = (bs, p).
Proof.
  intros Hcolon.
  destruct (str_find ":" p) as [[ | i] | ] eqn:Hfind; destruct p;
    try reflexivity.
  rewrite (no_scheme_before_colon _ Hcolon _ Hfind).
  now rewrite andb_false_r.
Qed.

Lemma keeps_server_parts (reference : string) :
  keeps_server reference = true ->
  is_empty reference = false
  /\ str_contains ":"
       (hd "" (str_split "/"
                 (remove_unsafe_bytes
                    (str_lstrip c0_control_or_space reference)))) = false
  /\ String.eqb
       (str_take 2
          (remove_unsafe_bytes (str_lstrip c0_control_or_space reference)))
       "//" = false.
Proof.
  unfold keeps_server. intros H.
  apply andb_prop in H as [H Htwo]. apply andb_prop in H as [Hne Hcolon].
  repeat split; now apply negb_true_iff.
Qed.

(** Such a reference parses to the default scheme and no network location. *)
Lemma urlparse_keeps_server (reference bs : string) :
  keeps_server reference = true ->
  str_in bs uses_relative = true ->
  exists path params query fragment,
    urlparse reference bs = Return (bs, "", path, params, query, fragment).
Proof.
  intros Hk Hbs. destruct (relative_scheme_facts bs Hbs) as [Hclean _].
  destruct (keeps_server_parts _ Hk) as (_ & Hcolon & Htwo).
  unfold urlparse, urlsplit. cbv zeta.
  rewrite Hclean, (no_scheme_detected _ bs Hcolon), Htwo.
  destruct (if str_contains "#" _ then _ else _) as [url1 fragment].
  destruct (if str_contains "?" url1 then _ else _) as [url2 query].
  destruct (if str_in bs uses_params && str_contains ";" url2 then _ else _)
    as [path params].
  now exists path, params, query, fragment.
Qed.

(** It is resolved onto the scheme and the network location of the base. *)
Lemma urljoin_keeps_server (base reference bs bn bpath bparams bq bf : string) :
  is_empty base = false ->
  urlparse base "" = Return (bs, bn, bpath, bparams, bq, bf) ->
  str_in bs uses_relative = true ->
  keeps_server reference = true ->
  exists path params query fragment,
    urljoin base reference
    = Return (urlunparse (bs, bn, path, params, query, fragment)).
Proof.
  intros Hbase Hparse Hbs Hk.
  destruct (relative_scheme_facts bs Hbs) as [_ Hnet].
  destruct (keeps_server_parts _ Hk) as (Hne & _ & _).
  destruct (urlparse_keeps_server _ _ Hk Hbs)
    as (path & params & query & fragment & Href).
  unfold urljoin. rewrite Hbase, Hne, Hparse, Href.
  rewrite str_in_refl_eqb, Hbs, Hnet. cbn [negb orb andb is_empty].
  destruct (is_empty path && is_empty params); eauto 6.
Qed.

(** A recomposed URL with a scheme and a network location shows them up
    front, and what follows starts a path, a query or a fragment. *)
Lemma urlunparse_shape (bs bn path params query fragment : string) :
  is_empty bs = false ->
  is_empty bn = false ->
  exists rest,
    urlunparse (bs, bn, path, params, query, fragment)
    = bs ++ "://" ++ bn ++ rest
    /\ after_netloc rest = true.
Proof.
  intros Hbs Hbn. unfold urlunparse, urlunsplit. rewrite Hbs, Hbn.
  cbn [negb orb].
  set (url1 := if negb (is_empty params) then path ++ ";" ++ params else path).
  set (url2 := if negb (is_empty url1)
                  && negb (String.eqb (str_take 1 url1) "/")
               then "/" ++ url1 else url1).
  assert (Hurl2 : after_netloc url2 = true).
  { subst url2. destruct url1 as [ | c r ]; [ reflexivity | ].
    cbn [is_empty negb andb str_take].
    destruct (Ascii.eqb_spec c "/") as [-> | Hc]; [ reflexivity | ].
    assert (E : String.eqb (String c "") "/" = false).
    { apply String.eqb_neq. congruence. }
    rewrite E. reflexivity. }
  assert (Hfront : forall tail, after_netloc tail = true ->
                                after_netloc (url2 ++ tail) = true).
  { intros tail Htail. destruct url2; [ exact Htail | exact Hurl2 ]. }
  destruct query as [ | q query ], fragment as [ | f fragment ];
    cbn [is_empty negb].
  - exists url2. split; [ reflexivity | exact Hurl2 ].
  - exists (url2 ++ "#" ++ String f fragment). split.
    + repeat (progress (rewrite ?str_append_assoc; cbn [append])).
      reflexivity.
    + now apply Hfront.
  - exists (url2 ++ "?" ++ String q query). split.
    + repeat (progress (rewrite ?str_append_assoc; cbn [append])).
      reflexivity.
    + now apply Hfront.
  - exists (url2 ++ "?" ++ String q query ++ "#" ++ String f fragment). split.
    + repeat (progress (rewrite ?str_append_assoc; cbn [append])).
      reflexivity.
    + now apply Hfront.
Qed.

(** The paths the endpoint calls build keep the server, whatever text the
    caller passes. *)
Lemma endpoint_keeps_server (c : call) :
  endpoint_call c = true ->
  exists meth operation json,
    planned_request c = Some (meth, operation, json)
    /\ keeps_server operation = true.
Proof.
  destruct c; try discriminate; intros _; cbn [planned_request];
    do 3 eexists; (split; [ reflexivity | reflexivity ]).
Qed.

(** X7: with a base URL that has a scheme for relative references and a
    network location, an endpoint call ([get_streams], [get_users],
    [get_users_username], [delete_users_id], [put_users_permissions])
    addresses its request to that scheme and network location, whatever
    text is passed as user name or id: the argument can change the path,
    the query and the fragment, never the server. *)
Theorem endpoint_calls_keep_server (c : call) (st : State)
    (bs bn bpath bparams bq bf : string) :
  is_empty (url (self st)) = false ->
  urlparse (url (self st)) "" = Return (bs, bn, bpath, bparams, bq, bf) ->
  str_in bs uses_relative = true ->
  is_empty bs = false ->
  is_empty bn = false ->
  endpoint_call c = true ->
  exists meth operation json rest,
    planned_request c = Some (meth, operation, json)
    /\ after_netloc rest = true
    /\ urljoin (url (self st)) operation = Return (bs ++ "://" ++ bn ++ rest)
    /\ snd (invoke c st)
       = after_exchange st
           (request_for meth (self st) (bs ++ "://" ++ bn ++ rest) json).
Proof.
  intros Hbase Hparse Hrel Hbs Hbn Hc.
  destruct (endpoint_keeps_server c Hc) as (meth & operation & json & Hplan & Hk).
  destruct (urljoin_keeps_server _ _ _ _ _ _ _ _ Hbase Hparse Hrel Hk)
    as (path & params & query & fragment & Hjoin).
  destruct (urlunparse_shape bs bn path params query fragment Hbs Hbn)
    as (rest & Hshape & Hrest).
  rewrite Hshape in Hjoin.
  exists meth, operation, json, rest. repeat split; auto.
  rewrite invoke_state, Hplan, Hjoin. reflexivity.
Qed.

(** X11: what a call sends does not depend on the calls made before it:
    after any sequence of calls, with any outcomes, the call issues the
    request it would have issued first, same method, URL, payload, headers
    and credentials. *)
Theorem call_request_independent_of_history (cs : list call) (c : call)
    (st : State) (meth : http_method) (operation : string)
    (json : option pyval) (u : string) :
  planned_request c = Some (meth, operation, json) ->
  urljoin (url (self st)) operation = Return u ->
  issued (world (snd (invoke c (invoke_all cs st))))
  = (issued (world (invoke_all cs st))
       ++ [request_for meth (self st) u json])%list.
Proof.
  intros Hplan Hu. rewrite invoke_state, Hplan.
  destruct (invoke_all_requests cs st) as (Hself & _).
  rewrite Hself, Hu. reflexivity.
Qed.

End Client.

(** ** The statements at work *)

(** C2: the server answers 400 to the DELETE on [users/id/42]; the call
    [delete_users_id("42")] does not return [False], it ends in the
    [NameError] of [del_request], after the DELETE has gone out. *)
Theorem delete_users_id_raises_on_400 :
  delete_users_id any_bracketed_host (constant_server 400 []) "42" local_client
  = (Raise (NameError "response"),
     after_exchange local_client
       (request_for DELETE (self local_client)
          "http://localhost:9000/api/users/id/42" None)).
Proof. reflexivity. Qed.

Lemma del_request_always_raises_witness :
  del_request any_bracketed_host (constant_server 204 []) "users/id/42"
    local_client
  = (Raise (NameError "response"),
     after_exchange local_client
       (request_for DELETE (self local_client)
          "http://localhost:9000/api/users/id/42" None)).
Proof.
  apply (proj2 (proj2 (del_request_always_raises any_bracketed_host
                  (constant_server 204 []) "users/id/42" local_client))
           "http://localhost:9000/api/users/id/42" (mkResponse 204 []));
    reflexivity.
Defined.

Lemma get_request_parses_iff_200_witness :
  fst (get_request any_bracketed_host (constant_server 200 (body_of "null"))
         ascii_decode table_json_loads "users" default_client)
  = Return PyNone
  /\ fst (get_request any_bracketed_host
            (constant_server 404 (body_of "{}"))
            ascii_decode table_json_loads "users" default_client)
     = Return PyNone
  /\ (fst (get_request any_bracketed_host
             (constant_server 200 (body_of "{}"))
             ascii_decode table_json_loads "users" default_client)
       = Return (PyDict []) <-> 200%Z = 200%Z).
Proof.
  split; [ | split ].
  - apply (proj1 (get_request_parses_iff_200 any_bracketed_host
                    (constant_server 200 (body_of "null"))
                    ascii_decode table_json_loads "users" default_client
                    "http://127.0.0.1:9000/api/users"
                    (mkResponse 200 (body_of "null")) eq_refl eq_refl)).
    reflexivity.
  - apply (proj1 (proj2 (get_request_parses_iff_200 any_bracketed_host
                    (constant_server 404 (body_of "{}"))
                    ascii_decode table_json_loads "users" default_client
                    "http://127.0.0.1:9000/api/users"
                    (mkResponse 404 (body_of "{}")) eq_refl eq_refl))).
    discriminate.
  - apply (proj2 (proj2 (get_request_parses_iff_200 any_bracketed_host
                    (constant_server 200 (body_of "{}"))
                    ascii_decode table_json_loads "users" default_client
                    "http://127.0.0.1:9000/api/users"
                    (mkResponse 200 (body_of "{}")) eq_refl eq_refl))
             "{}" (PyDict [])); [ reflexivity | reflexivity | discriminate ].
Defined.

Lemma get_streams_member_or_raise_witness :
  get_streams any_bracketed_host (constant_server 200 (body_of streams_text))
    ascii_decode table_json_loads local_client
  = (Return (PyList []),
     after_exchange local_client
       (request_for GET (self local_client)
          "http://localhost:9000/api/streams" None))
  /\ get_streams any_bracketed_host
       (constant_server 500 (body_of streams_text))
       ascii_decode table_json_loads local_client
     = (Raise TypeError,
        after_exchange local_client
          (request_for GET (self local_client)
             "http://localhost:9000/api/streams" None)).
Proof.
  split.
  - apply (proj1 (get_streams_member_or_raise any_bracketed_host
                    (constant_server 200 (body_of streams_text))
                    ascii_decode table_json_loads local_client
                    "http://localhost:9000/api/streams"
                    (mkResponse 200 (body_of streams_text)) eq_refl eq_refl)
             eq_refl streams_text [("streams", PyList [])] (PyList []));
      reflexivity.
  - apply (proj2 (get_streams_member_or_raise any_bracketed_host
                    (constant_server 500 (body_of streams_text))
                    ascii_decode table_json_loads local_client
                    "http://localhost:9000/api/streams"
                    (mkResponse 500 (body_of streams_text)) eq_refl eq_refl)).
    discriminate.
Defined.

Lemma get_streams_200_unguarded_witness :
  get_streams any_bracketed_host (constant_server 200 (body_of "{}"))
    ascii_decode table_json_loads local_client
  = (Raise (KeyError "streams"),
     after_exchange local_client
       (request_for GET (self local_client)
          "http://localhost:9000/api/streams" None))
  /\ get_streams any_bracketed_host (constant_server 200 (body_of "null"))
       ascii_decode table_json_loads local_client
     = (Raise TypeError,
        after_exchange local_client
          (request_for GET (self local_client)
             "http://localhost:9000/api/streams" None)).
Proof.
  split.
  - apply (proj1 (get_streams_200_unguarded any_bracketed_host
                    (constant_server 200 (body_of "{}"))
                    ascii_decode table_json_loads local_client
                    "http://localhost:9000/api/streams"
                    (mkResponse 200 (body_of "{}")) "{}" (PyDict [])
                    eq_refl eq_refl eq_refl eq_refl eq_refl)
             []);
      reflexivity.
  - apply (proj2 (get_streams_200_unguarded any_bracketed_host
                    (constant_server 200 (body_of "null"))
                    ascii_decode table_json_loads local_client
                    "http://localhost:9000/api/streams"
                    (mkResponse 200 (body_of "null")) "null" PyNone
                    eq_refl eq_refl eq_refl eq_refl eq_refl)).
    discriminate.
Defined.

Lemma put_request_returns_status_witness :
  put_request any_bracketed_host (constant_server 503 (body_of "busy"))
    "users/alice/permissions" (PyDict []) local_client
  = (Return 503%Z,
     after_exchange local_client
       (request_for PUT (self local_client)
          "http://localhost:9000/api/users/alice/permissions"
          (Some (PyDict [])))).
Proof.
  apply (put_request_returns_status any_bracketed_host
           (constant_server 503 (body_of "busy"))
           "users/alice/permissions" (PyDict []) local_client
           "http://localhost:9000/api/users/alice/permissions"
           503%Z (body_of "busy"));
    reflexivity.
Defined.

Lemma put_users_permissions_body_and_result_witness :
  put_users_permissions any_bracketed_host (constant_server 200 [])
    "alice" (PyList [PyStr "read"]) local_client
  = (Return true,
     after_exchange local_client
       (request_for PUT (self local_client)
          "http://localhost:9000/api/users/alice/permissions"
          (Some (PyDict [("permissions", PyList [PyStr "read"])]))))
  /\ fst (put_users_permissions any_bracketed_host (constant_server 400 [])
            "alice" (PyList [PyStr "read"]) local_client)
     = Return false
  /\ fst (put_users_permissions any_bracketed_host (constant_server 500 [])
            "alice" (PyList [PyStr "read"]) local_client)
     = Return true.
Proof.
  split; [ | split ].
  - apply (proj1 (put_users_permissions_body_and_result any_bracketed_host
                    (constant_server 200 [])
                    "alice" (PyList [PyStr "read"]) local_client
                    "http://localhost:9000/api/users/alice/permissions"
                    (mkResponse 200 []) eq_refl eq_refl)).
  - apply (proj1 (proj2 (put_users_permissions_body_and_result
                    any_bracketed_host (constant_server 400 [])
                    "alice" (PyList [PyStr "read"]) local_client
                    "http://localhost:9000/api/users/alice/permissions"
                    (mkResponse 400 []) eq_refl eq_refl))).
    reflexivity.
  - apply (proj2 (proj2 (put_users_permissions_body_and_result
                    any_bracketed_host (constant_server 500 [])
                    "alice" (PyList [PyStr "read"]) local_client
                    "http://localhost:9000/api/users/alice/permissions"
                    (mkResponse 500 []) eq_refl eq_refl))).
    discriminate.
Defined.

Lemma request_url_resolution_witness :
  requests_addressed_to any_bracketed_host (constant_server 200 [])
    ascii_decode table_json_loads "streams" PyNone default_client
    "http://127.0.0.1:9000/api/streams"
  /\ requests_addressed_to any_bracketed_host (constant_server 200 [])
       ascii_decode table_json_loads "users/../streams" PyNone default_client
       "http://127.0.0.1:9000/api/streams"
  /\ requests_addressed_to any_bracketed_host (constant_server 200 [])
       ascii_decode table_json_loads "streams" PyNone slashless_client
       "http://127.0.0.1:9000/streams"
  /\ requests_addressed_to any_bracketed_host (constant_server 200 [])
       ascii_decode table_json_loads "/users" PyNone default_client
       "http://127.0.0.1:9000/users"
  /\ requests_addressed_to any_bracketed_host (constant_server 200 [])
       ascii_decode table_json_loads "/api/../users/." PyNone default_client
       "http://127.0.0.1:9000/users/"
  /\ requests_addressed_to any_bracketed_host (constant_server 200 [])
       ascii_decode table_json_loads "" PyNone default_client
       "http://127.0.0.1:9000/api/".
Proof.
  split; [ | split; [ | split; [ | split; [ | split ] ] ] ].
  - apply (proj1 (proj2 (proj2
             (request_url_resolution any_bracketed_host
                (constant_server 200 []) ascii_decode table_json_loads
                "streams" PyNone default_client
                "http" "127.0.0.1:9000" "/api/" "" "" ""
                eq_refl eq_refl eq_refl))));
      reflexivity.
  - apply (proj1
             (request_url_resolution any_bracketed_host
                (constant_server 200 []) ascii_decode table_json_loads
                "users/../streams" PyNone default_client
                "http" "127.0.0.1:9000" "/api/" "" "" ""
                eq_refl eq_refl eq_refl));
      reflexivity.
  - apply (proj1 (proj2
             (request_url_resolution any_bracketed_host
                (constant_server 200 []) ascii_decode table_json_loads
                "streams" PyNone slashless_client
                "http" "127.0.0.1:9000" "/api" "" "" ""
                eq_refl eq_refl eq_refl))
             eq_refl eq_refl "/" "api");
      reflexivity.
  - apply (proj1 (proj2 (proj2 (proj2 (proj2
             (request_url_resolution any_bracketed_host
                (constant_server 200 []) ascii_decode table_json_loads
                "/users" PyNone default_client
                "http" "127.0.0.1:9000" "/api/" "" "" ""
                eq_refl eq_refl eq_refl))))));
      reflexivity.
  - apply (proj1 (proj2 (proj2 (proj2
             (request_url_resolution any_bracketed_host
                (constant_server 200 []) ascii_decode table_json_loads
                "/api/../users/." PyNone default_client
                "http" "127.0.0.1:9000" "/api/" "" "" ""
                eq_refl eq_refl eq_refl)))));
      reflexivity.
  - apply (proj2 (proj2 (proj2 (proj2 (proj2
             (request_url_resolution any_bracketed_host
                (constant_server 200 []) ascii_decode table_json_loads
                "" PyNone default_client
                "http" "127.0.0.1:9000" "/api/" "" "" ""
                eq_refl eq_refl eq_refl))))));
      reflexivity.
Defined.

Lemma arguments_interpolated_verbatim_witness :
  issued (world (snd (get_users_username any_bracketed_host
                        (constant_server 200 (body_of "{}"))
                        ascii_decode table_json_loads "../streams"
                        default_client)))
  = [request_for GET (self default_client)
       "http://127.0.0.1:9000/api/streams" None]
  /\ issued (world (snd (delete_users_id any_bracketed_host
                           (constant_server 204 []) "../alice"
                           default_client)))
     = [request_for DELETE (self default_client)
          "http://127.0.0.1:9000/api/users/alice" None].
Proof.
  split.
  - apply (proj1 (proj2 (proj2
             (arguments_interpolated_verbatim any_bracketed_host
                (constant_server 200 (body_of "{}"))
                ascii_decode table_json_loads "../streams" "../alice"
                default_client)))
             "http://127.0.0.1:9000/api/streams").
    reflexivity.
  - apply (proj1 (proj2 (proj2 (proj2
             (arguments_interpolated_verbatim any_bracketed_host
                (constant_server 204 [])
                ascii_decode table_json_loads "../streams" "../alice"
                default_client))))
             "http://127.0.0.1:9000/api/users/alice").
    reflexivity.
Defined.

(** ** Instances of the further statements *)

Lemma call_issues_planned_exchange_witness :
  snd (invoke any_bracketed_host (constant_server 500 []) ascii_decode
         table_json_loads
         (Call_put_users_permissions "alice" (PyList [])) local_client)
  = after_exchange local_client
      (request_for PUT (self local_client)
         "http://localhost:9000/api/users/alice/permissions"
         (Some (PyDict [("permissions", PyList [])])))
  /\ invoke any_bracketed_host (constant_server 500 []) ascii_decode
       table_json_loads Call_post_request local_client
     = (Return PyNone, local_client).
Proof.
  split.
  - apply (proj1 (call_issues_planned_exchange any_bracketed_host
                    (constant_server 500 []) ascii_decode table_json_loads
                    (Call_put_users_permissions "alice" (PyList []))
                    local_client)
             PUT "users/alice/permissions"
             (Some (PyDict [("permissions", PyList [])]))
             "http://localhost:9000/api/users/alice/permissions");
      reflexivity.
  - apply (proj2 (call_issues_planned_exchange any_bracketed_host
                    (constant_server 500 []) ascii_decode table_json_loads
                    Call_post_request local_client)).
    reflexivity.
Defined.

Lemma call_unresolved_raises_untouched_witness :
  invoke any_bracketed_host (constant_server 200 []) ascii_decode
    table_json_loads Call_get_users
    (__init__ "abc123" (Some "http://[::1/api/") fresh_world)
  = (Raise ValueError,
     __init__ "abc123" (Some "http://[::1/api/") fresh_world).
Proof.
  apply (call_unresolved_raises_untouched any_bracketed_host
           (constant_server 200 []) ascii_decode table_json_loads
           Call_get_users
           (__init__ "abc123" (Some "http://[::1/api/") fresh_world)
           GET "users" None ValueError);
    reflexivity.
Defined.

Lemma call_transport_failure_propagates_witness :
  invoke any_bracketed_host (fun _ _ => Raise RequestException) ascii_decode
    table_json_loads (Call_get_users_username "alice") default_client
  = (Raise RequestException,
     after_exchange default_client
       (request_for GET (self default_client)
          "http://127.0.0.1:9000/api/users/alice" None)).
Proof.
  apply (call_transport_failure_propagates any_bracketed_host
           (fun _ _ => Raise RequestException) ascii_decode table_json_loads
           (Call_get_users_username "alice") default_client
           GET "users/alice" None
           "http://127.0.0.1:9000/api/users/alice" RequestException);
    reflexivity.
Defined.

Lemma get_request_outcomes_witness :
  (exists u r,
      urljoin any_bracketed_host (url (self default_client)) "users"
      = Return u
      /\ delivers (constant_server 404 (body_of "{}")) default_client
           (request_for GET (self default_client) u None) r
      /\ ((status_code r = 200%Z
           /\ result_bind (ascii_decode (content r)) table_json_loads
              = Return PyNone)
          \/ (status_code r <> 200%Z /\ PyNone = PyNone)))
  /\ (urljoin any_bracketed_host (url (self default_client)) "users"
      = Raise ValueError
      \/ exists u,
          urljoin any_bracketed_host (url (self default_client)) "users"
          = Return u
          /\ (constant_server 200 (body_of "oops")
                (issued (world default_client))
                (request_for GET (self default_client) u None)
              = Raise ValueError
              \/ exists r,
                  delivers (constant_server 200 (body_of "oops"))
                    default_client
                    (request_for GET (self default_client) u None) r
                  /\ status_code r = 200%Z
                  /\ result_bind (ascii_decode (content r)) table_json_loads
                     = Raise ValueError)).
Proof.
  split.
  - apply (proj1 (get_request_outcomes any_bracketed_host
                    (constant_server 404 (body_of "{}")) ascii_decode
                    table_json_loads "users" default_client)).
    reflexivity.
  - apply (proj2 (get_request_outcomes any_bracketed_host
                    (constant_server 200 (body_of "oops")) ascii_decode
                    table_json_loads "users" default_client)).
    reflexivity.
Defined.

Lemma get_streams_returns_only_member_witness :
  exists u r text d,
    urljoin any_bracketed_host (url (self local_client)) "streams" = Return u
    /\ delivers (constant_server 200 (body_of streams_text)) local_client
         (request_for GET (self local_client) u None) r
    /\ status_code r = 200%Z
    /\ ascii_decode (content r) = Return text
    /\ table_json_loads text = Return (PyDict d)
    /\ dict_get "streams" d = Some (PyList []).
Proof.
  apply (get_streams_returns_only_member any_bracketed_host
           (constant_server 200 (body_of streams_text)) ascii_decode
           table_json_loads local_client (PyList [])).
  reflexivity.
Defined.

Lemma endpoint_calls_keep_server_witness :
  exists meth operation json rest,
    planned_request (Call_get_users_username "//other.example/x:y?z#w")
    = Some (meth, operation, json)
    /\ after_netloc rest = true
    /\ urljoin any_bracketed_host (url (self default_client)) operation
       = Return ("http" ++ "://" ++ "127.0.0.1:9000" ++ rest)
    /\ snd (invoke any_bracketed_host (constant_server 200 []) ascii_decode
              table_json_loads
              (Call_get_users_username "//other.example/x:y?z#w")
              default_client)
       = after_exchange default_client
           (request_for meth (self default_client)
              ("http" ++ "://" ++ "127.0.0.1:9000" ++ rest) json).
Proof.
  apply (endpoint_calls_keep_server any_bracketed_host
           (constant_server 200 []) ascii_decode table_json_loads
           (Call_get_users_username "//other.example/x:y?z#w")
           default_client "http" "127.0.0.1:9000" "/api/" "" "" "");
    reflexivity.
Defined.

Lemma put_users_permissions_result_meaning_witness :
  exists u r,
    urljoin any_bracketed_host (url (self local_client))
      ("users/" ++ "alice" ++ "/permissions") = Return u
    /\ delivers (constant_server 403 []) local_client
         (request_for PUT (self local_client) u
            (Some (PyDict [("permissions", PyList [PyStr "read"])]))) r
    /\ (true = false <-> status_code r = 400%Z).
Proof.
  apply (put_users_permissions_result_meaning any_bracketed_host
           (constant_server 403 []) "alice" (PyList [PyStr "read"])
           local_client true).
  reflexivity.
Defined.

Lemma delete_users_id_sends_then_raises_witness :
  exists e,
    delete_users_id any_bracketed_host (constant_server 204 []) "42"
      local_client
    = (Raise e,
       after_exchange local_client
         (request_for DELETE (self local_client)
            "http://localhost:9000/api/users/id/42" None)).
Proof.
  apply (proj2 (delete_users_id_sends_then_raises any_bracketed_host
                  (constant_server 204 []) "42" local_client)).
  reflexivity.
Defined.

Lemma call_request_independent_of_history_witness :
  issued (world (snd (invoke any_bracketed_host (constant_server 200 [])
                        ascii_decode table_json_loads Call_get_users
                        (invoke_all any_bracketed_host
                           (constant_server 200 []) ascii_decode
                           table_json_loads
                           [Call_delete_users_id "42"; Call_get_streams]
                           default_client))))
  = (issued (world (invoke_all any_bracketed_host (constant_server 200 [])
                      ascii_decode table_json_loads
                      [Call_delete_users_id "42"; Call_get_streams]
                      default_client))
       ++ [request_for GET (self default_client)
             "http://127.0.0.1:9000/api/users" None])%list.
Proof.
  apply (call_request_independent_of_history any_bracketed_host
           (constant_server 200 []) ascii_decode table_json_loads
           [Call_delete_users_id "42"; Call_get_streams] Call_get_users
           default_client GET "users" None
           "http://127.0.0.1:9000/api/users");
    reflexivity.
Defined.
